(** * Bronze ingestion of the leasing workbook: a shallow embedding

    The development follows [etl/utils.py], [etl/config.py],
    [etl/ingest_excel.py] and [etl/quality.py].  Python values are modelled
    as they reach the code: a worksheet cell is empty, a number (IEEE
    binary64, Rocq's primitive floats), a text or a date; a text is a
    [string] of bytes, on which [lower] and [strip] act as Python's
    [str.lower] and [str.strip] do on ASCII text.  Exceptions are explicit
    ([result]); the files under [data/bronze] and the ingestion log are an
    explicit state ([bronze]).  What the code asks of Python, pandas and
    openpyxl beyond that (printing and parsing of numbers and dates, reading
    a sheet into a frame) is a parameter ([Lib]), so that every theorem holds
    whatever these functions answer. *)

From Stdlib Require Import ZArith Ascii String List Bool Lia Floats DecimalString.
From stdpp Require Import base option list strings gmap.

(** ** Text primitives *)

Module Text.

(** [ch.lower()] on an ASCII character: only 'A'..'Z' change. *)
Definition lower_ascii (c : ascii) : ascii :=
  let n := nat_of_ascii c in
  if (65 <=? n)%nat && (n <=? 90)%nat then ascii_of_nat (n + 32) else c.

(** [s.lower()] *)
Fixpoint lower (s : string) : string :=
  match s with
  | EmptyString => EmptyString
  | String c s' => String (lower_ascii c) (lower s')
  end.

(** [ch.isspace()] on an ASCII character: TAB, LF, VT, FF, CR, FS, GS, RS,
    US and the space. *)
Definition is_space (c : ascii) : bool :=
  let n := nat_of_ascii c in
  ((9 <=? n)%nat && (n <=? 13)%nat) || ((28 <=? n)%nat && (n <=? 32)%nat).

(** [s.lstrip()] *)
Fixpoint lstrip (s : string) : string :=
  match s with
  | EmptyString => EmptyString
  | String c s' => if is_space c then lstrip s' else s
  end.

(** [s.rstrip()] *)
Fixpoint rstrip (s : string) : string :=
  match s with
  | EmptyString => EmptyString
  | String c s' =>
      match rstrip s' with
      | EmptyString => if is_space c then EmptyString else String c EmptyString
      | r => String c r
      end
  end.

(** [s.strip()] *)
Definition strip (s : string) : string := rstrip (lstrip s).

(** [s.startswith(p)] *)
Fixpoint startswith (p s : string) : bool :=
  match p, s with
  | EmptyString, _ => true
  | String _ _, EmptyString => false
  | String a p', String b s' => if Ascii.eqb a b then startswith p' s' else false
  end.

(** [p in s]: [p] occurs in [s] as a substring. *)
Fixpoint py_in (p s : string) : bool :=
  match s with
  | EmptyString => startswith p EmptyString
  | String _ s' => startswith p s || py_in p s'
  end.

(** [bool(s)] for a string. *)
Definition nonempty (s : string) : bool :=
  match s with EmptyString => false | String _ _ => true end.

(** Every character of [s] is white space. *)
Fixpoint all_space (s : string) : bool :=
  match s with
  | EmptyString => true
  | String c s' => is_space c && all_space s'
  end.

(** The declarative reading of [p in s]. *)
Definition is_substring (p s : string) : Prop :=
  exists a b : string, s = a +:+ p +:+ b.

End Text.

Import Text.

(** ** Sheet locator ([etl/utils.py], [pick_sheet]) *)

(** The inner loop [for i, sheet_name in enumerate(sheet_names)]: walks the
    lowercased names and the workbook's names side by side, so that the hit
    at index [i] returns [workbook.sheetnames[i]]. *)
Fixpoint pick_sheet_scan (pattern_lower : string)
    (sheet_names : list string) (sheetnames : list string) : option string :=
  match sheet_names, sheetnames with
  | sheet_name :: sheet_names', actual_name :: sheetnames' =>
      if py_in pattern_lower sheet_name then Some actual_name
      else pick_sheet_scan pattern_lower sheet_names' sheetnames'
  | _, _ => None
  end.

(** The outer loop [for pattern in patterns]. *)
Fixpoint pick_sheet_loop (sheet_names sheetnames patterns : list string)
    : option string :=
  match patterns with
  | [] => None
  | pattern :: patterns' =>
      let pattern_lower := lower pattern in
      match pick_sheet_scan pattern_lower sheet_names sheetnames with
      | Some actual_name => Some actual_name
      | None => pick_sheet_loop sheet_names sheetnames patterns'
      end
  end.

Definition pick_sheet (sheetnames patterns : list string) : option string :=
  let sheet_names := map lower sheetnames in
  pick_sheet_loop sheet_names sheetnames patterns.

(** ** Python values, exceptions and the library the code calls *)

(** A calendar month as [strftime('%Y-%m')] sees a [Timestamp]. *)
Record timestamp := { ts_year : nat; ts_month : nat }.

(** What a worksheet cell or a DataFrame cell holds. *)
Inductive pyval :=
| PyNone
| PyFloat (x : float)
| PyStr (s : string)
| PyDate (d : timestamp).

Inductive exn :=
| AttributeError
| TypeError
| ValueError (msg : string)
| KeyError (key : string)
| PandasError.

Inductive result (A : Type) :=
| Ok (a : A)
| Raise (e : exn).
Arguments Ok {A} a.
Arguments Raise {A} e.

#[global] Instance result_ret : MRet result := fun A a => Ok a.

#[global] Instance result_bind : MBind result := fun A B k r =>
  match r with
  | Ok a => k a
  | Raise e => Raise e
  end.

(** One frame of [pandas]: the column labels (as [str] prints them) and the
    rows, each a list of cells in column order. *)
Record frame := { columns : list string; rows : list (list pyval) }.

(** A worksheet as [openpyxl] returns it with [data_only=True]: rows of cell
    values, row 1 first, column A first; a cell outside the stored grid is
    empty. *)
Definition grid := list (list pyval).

(** Functions of Python, pandas and openpyxl that the code calls and that are
    defined outside the repository.  [None] stands for the call raising (or,
    for [to_datetime] and [to_numeric] under [errors='coerce'], for NaT/NaN). *)
Record Lib := {
  (** [str(v)] for a value that is neither text nor [None] *)
  str_of : pyval -> string;
  (** [float(s)] for text *)
  float_of_str : string -> option float;
  (** [int(s)] for text, printed back by an f-string *)
  int_of_str : string -> option string;
  (** [pd.to_numeric(v, errors='coerce')] for a non-null, non-float value *)
  to_numeric : pyval -> option float;
  (** [pd.to_datetime(v, errors='coerce')] *)
  to_datetime : pyval -> option timestamp;
  (** [pd.read_excel(path, sheet_name, header=h)] *)
  read_excel : nat -> grid -> option frame;
  (** [clean_dataframe(df)]: pandas [dropna] and [str.strip] over the frame *)
  clean_dataframe : frame -> frame
}.

Section Python.

Variable L : Lib.

Definition is_nan (x : float) : bool := negb (PrimFloat.eqb x x).

(** [pd.isna(v)] for a scalar. *)
Definition pd_isna (v : pyval) : bool :=
  match v with
  | PyNone => true
  | PyFloat x => is_nan x
  | PyStr _ => false
  | PyDate _ => false
  end.

(** [bool(v)] *)
Definition truthy (v : pyval) : bool :=
  match v with
  | PyNone => false
  | PyFloat x => negb (PrimFloat.eqb x 0%float)
  | PyStr s => nonempty s
  | PyDate _ => true
  end.

(** [str(v)], also what an f-string field prints. *)
Definition py_str (v : pyval) : string :=
  match v with
  | PyNone => "None"
  | PyStr s => s
  | _ => str_of L v
  end.

(** [v.lower()] *)
Definition py_lower (v : pyval) : result pyval :=
  match v with
  | PyStr s => Ok (PyStr (lower s))
  | _ => Raise AttributeError
  end.

(** [v.strip()] *)
Definition py_strip (v : pyval) : result pyval :=
  match v with
  | PyStr s => Ok (PyStr (strip s))
  | _ => Raise AttributeError
  end.

(** [a in b] for a text [b]. *)
Definition py_contains (a b : pyval) : result bool :=
  match a, b with
  | PyStr p, PyStr s => Ok (py_in p s)
  | _, _ => Raise TypeError
  end.

(** [any(f(x) for x in xs)]: stops at the first true element, and at the
    first exception. *)
Fixpoint py_any {A : Type} (f : A -> result bool) (xs : list A) : result bool :=
  match xs with
  | [] => Ok false
  | x :: xs' =>
      b ← f x;
      if b : bool then Ok true else py_any f xs'
  end.

(** ** Text classifiers ([etl/utils.py]) *)

Definition is_vacant (tenant_name : pyval) (vacancy_patterns : list string)
    : result bool :=
  if pd_isna tenant_name || negb (truthy tenant_name) then Ok true
  else
    lowered ← py_lower (PyStr (py_str tenant_name));
    tenant_lower ← py_strip lowered;
    py_any (fun pattern => py_contains (PyStr pattern) tenant_lower)
      vacancy_patterns.

Definition is_own_use (tenant_name suite_id : pyval)
    (own_use_patterns : list string) : result bool :=
  lowered ← py_lower
    (PyStr (py_str tenant_name +:+ " " +:+ py_str suite_id));
  combined ← py_strip lowered;
  py_any (fun pattern => py_contains (PyStr pattern) combined)
    own_use_patterns.

End Python.

(** ** Configuration ([etl/config.py]) *)

Definition DASHBOARD_SHEET_PATTERNS : list string := ["dashboard"; "2025"; "2026"].
Definition LEASE_RATE_SHEET_PATTERNS : list string := ["lease"; "rate"].
Definition EXPENSE_SHEET_PATTERNS : list string := ["expense"; "gastos"; "budget"].

Definition OWN_USE_PATTERNS : list string :=
  ["black label"; "owner use"; "uso propio"; "101b"].

Definition VACANCY_PATTERNS : list string :=
  ["vacante"; "vacant"; "disponible"; "available"].

(** ** Workbooks *)

Record workbook := { sheets : list (string * grid) }.

(** [wb.sheetnames] *)
Definition sheetnames (wb : workbook) : list string := map fst (sheets wb).

(** [wb[sheet_name]] *)
Definition get_sheet (wb : workbook) (sheet_name : string) : result grid :=
  match find (fun p => String.eqb (fst p) sheet_name) (sheets wb) with
  | Some p => Ok (snd p)
  | None => Raise (KeyError sheet_name)
  end.

(** [ws[r]]: the values of row [r] (1-based). *)
Definition row_values (ws : grid) (r : nat) : list pyval :=
  match r with
  | 0 => []
  | S r' => nth r' ws []
  end.

(** [ws.cell(row=r, column=c).value] (1-based). *)
Definition cell_value (ws : grid) (r c : nat) : pyval :=
  match c with
  | 0 => PyNone
  | S c' => nth c' (row_values ws r) PyNone
  end.

(** [s.split(sep)[0]] *)
Fixpoint split_head (sep : ascii) (s : string) : string :=
  match s with
  | EmptyString => EmptyString
  | String c s' => if Ascii.eqb c sep then EmptyString else String c (split_head sep s')
  end.

(** [d.get(k)] on a dict literal. *)
Fixpoint dict_get {V : Type} (d : list (string * V)) (k : string) : option V :=
  match d with
  | [] => None
  | (k', v) :: d' => if String.eqb k' k then Some v else dict_get d' k
  end.

(** [str(n)] for a natural number. *)
Definition str_nat (n : nat) : string := NilEmpty.string_of_uint (Nat.to_uint n).

(** The dict [month_map] of both extractors, for the year text [year]. *)
Definition month_map (year : string) : list (string * string) :=
  [ ("january", year +:+ "-01-01"); ("february", year +:+ "-02-01");
    ("march", year +:+ "-03-01"); ("april", year +:+ "-04-01");
    ("may", year +:+ "-05-01"); ("june", year +:+ "-06-01");
    ("july", year +:+ "-07-01"); ("august", year +:+ "-08-01");
    ("september", year +:+ "-09-01"); ("october", year +:+ "-10-01");
    ("november", year +:+ "-11-01"); ("december", year +:+ "-12-01") ].

(** ** Bronze records *)

(** A row of [_extract_dashboard_structured]; a metric is [None] when the
    cell is empty or does not convert. *)
Record dashboard_record := {
  month : string;
  rent_base : option float;
  collected : option float;
  uncollected : option float;
  leased_sqft : option float;
  price_per_sf_yr : option float
}.

(** MonthlyDashboardFact *)
Record dash_row := {
  d_record : dashboard_record;
  d_as_of_month : string;
  d_file_md5 : string;
  d_ingested_at : string
}.

(** MonthlyExpenseFact *)
Record exp_row := {
  e_as_of_month : string;
  e_month : string;
  item : string;
  actual : float;
  expense_category : string;
  e_file_md5 : string;
  e_ingested_at : string
}.

(** SuiteSnapshotFact *)
Record lease_row := {
  l_as_of_month : string;
  suite_id : string;
  building : option string;
  tenant : pyval;
  sqft : float;
  rent_monthly : float;
  rent_annual : float;
  rent_psf_yr : float;
  l_is_vacant : bool;
  l_is_own_use : bool;
  l_file_md5 : string;
  l_ingested_at : string
}.

Section Extractors.

Variable L : Lib.

(** ** Dashboard extractor ([etl/ingest_excel.py]) *)

(** [str(cell.value).strip()] when [cell.value and str(cell.value).strip()]. *)
Definition header_label (v : pyval) : option string :=
  if truthy v && nonempty (strip (py_str L v))
  then Some (strip (py_str L v)) else None.

(** The loop over [ws[header_row]] collecting [months_raw]. *)
Fixpoint dashboard_months (cells : list pyval) : list string :=
  match cells with
  | [] => []
  | v :: cells' =>
      match header_label v with
      | Some val =>
          if bool_decide (lower val ∈ ["collection target"; "target"])
          then dashboard_months cells'
          else val :: dashboard_months cells'
      | None => dashboard_months cells'
      end
  end.

(** [float(cell_value)] under [except (ValueError, TypeError)], [None] for an
    empty cell. *)
Definition float_or_none (v : pyval) : option float :=
  match v with
  | PyNone => None
  | PyFloat x => Some x
  | PyStr s => float_of_str L s
  | PyDate _ => None
  end.

(** The body of [for month_idx, month_name in enumerate(months_raw)], from
    index [month_idx] on. *)
Fixpoint dashboard_data (ws : grid) (month_idx : nat) (months_raw : list string)
    : list dashboard_record :=
  match months_raw with
  | [] => []
  | month_name :: rest =>
      let col_num := 9 + month_idx in
      {| month := month_name;
         rent_base := float_or_none (cell_value ws 30 col_num);
         collected := float_or_none (cell_value ws 32 col_num);
         uncollected := float_or_none (cell_value ws 33 col_num);
         leased_sqft := float_or_none (cell_value ws 35 col_num);
         price_per_sf_yr := float_or_none (cell_value ws 36 col_num) |}
      :: dashboard_data ws (S month_idx) rest
  end.

(** [df["month"].str.lower().map(month_map)], [pd.to_datetime] and
    [dropna(subset=["month"])]: a row whose month name is not a key of
    [month_map] is dropped, the others carry the date.  The dates are built
    from the year of [as_of_month]; with a period of the detector they always
    parse. *)
Fixpoint resolve_months (year : string) (data : list dashboard_record)
    : list dashboard_record :=
  match data with
  | [] => []
  | r :: data' =>
      match dict_get (month_map year) (lower (month r)) with
      | Some date =>
          {| month := date; rent_base := rent_base r; collected := collected r;
             uncollected := uncollected r; leased_sqft := leased_sqft r;
             price_per_sf_yr := price_per_sf_yr r |}
          :: resolve_months year data'
      | None => resolve_months year data'
      end
  end.

Definition _extract_dashboard_structured (ws : grid) (as_of_month : string)
    : result (list dashboard_record) :=
  let months_raw := dashboard_months (row_values ws 29) in
  let data := dashboard_data ws 0 months_raw in
  match data with
  | [] => Raise (KeyError "month")  (* [pd.DataFrame([])] has no column *)
  | _ =>
      let year := split_head "-" as_of_month in
      Ok (resolve_months year data)
  end.

Definition ingest_dashboard_monthly (wb : workbook)
    (as_of_month file_md5 now_iso : string) : result (list dash_row) :=
  match pick_sheet (sheetnames wb) DASHBOARD_SHEET_PATTERNS with
  | None => Raise (ValueError "Could not find dashboard sheet")
  | Some sheet_name =>
      if negb (nonempty sheet_name)
      then Raise (ValueError "Could not find dashboard sheet")
      else
        ws ← get_sheet wb sheet_name;
        df ← _extract_dashboard_structured ws as_of_month;
        Ok (map (fun r => {| d_record := r; d_as_of_month := as_of_month;
                             d_file_md5 := file_md5;
                             d_ingested_at := now_iso |}) df)
  end.

(** ** Expenses extractor *)

(** The rows of the dict [expense_items], in insertion order. *)
Definition expense_items : list (nat * (string * string)) :=
  [ (42, ("Electricity", "fixed")); (43, ("Internet", "fixed"));
    (44, ("Yardi Breeze", "fixed")); (45, ("Water", "fixed"));
    (46, ("Pest Control", "fixed")); (47, ("Supplies", "fixed"));
    (48, ("Nexus trash disposal", "fixed")); (49, ("Insurance", "fixed"));
    (50, ("Property management", "fixed"));
    (53, ("Repairs", "variable")); (54, ("Real Estate Agent", "variable"));
    (55, ("A/C Maintenance", "variable")); (56, ("Bank Fees", "variable"));
    (57, ("Light fixtures maintenance", "variable"));
    (60, ("Accrued Property tax", "other")); (61, ("Other", "other"));
    (66, ("Management - RP", "other")); (67, ("Other expenses", "other"));
    (68, ("CAPEX", "other")) ].

(** [for col_idx in range(month_start_col, month_start_col + 12)] over
    row 40. *)
Definition expense_months (ws : grid) : list string :=
  omap (fun col_idx => header_label (cell_value ws 40 col_idx)) (seq 9 12).

(** [float(actual_value)] for a cell that is not [None]; [None] when it
    raises [ValueError] or [TypeError]. *)
Definition float_of_cell (v : pyval) : option float :=
  match v with
  | PyNone => None
  | PyFloat x => Some x
  | PyStr s => float_of_str L s
  | PyDate _ => None
  end.

(** The inner loop over [enumerate(months_raw)] for one expense row. *)
Fixpoint expense_row_data (ws : grid) (year : string) (row_num : nat)
    (item_text category : string) (month_idx : nat) (months_raw : list string)
    (as_of_month file_md5 now_iso : string) : list exp_row :=
  match months_raw with
  | [] => []
  | month_name :: rest =>
      let col_num := 9 + month_idx in
      let actual_value := cell_value ws row_num col_num in
      let tail := expense_row_data ws year row_num item_text category
                    (S month_idx) rest as_of_month file_md5 now_iso in
      match actual_value with
      | PyNone => tail
      | _ =>
          match float_of_cell actual_value,
                dict_get (month_map year) (lower month_name) with
          | Some x, Some month_date =>
              if nonempty month_date
              then {| e_as_of_month := as_of_month; e_month := month_date;
                      item := item_text; actual := x;
                      expense_category := category;
                      e_file_md5 := file_md5; e_ingested_at := now_iso |} :: tail
              else tail
          | _, _ => tail
          end
      end
  end.

(** The outer loop over [expense_items.items()]. *)
Fixpoint expense_data (ws : grid) (year : string)
    (items : list (nat * (string * string))) (months_raw : list string)
    (as_of_month file_md5 now_iso : string) : list exp_row :=
  match items with
  | [] => []
  | (row_num, (item_name, category)) :: items' =>
      let item_cell := cell_value ws row_num 5 in
      let item_text :=
        if truthy item_cell then strip (py_str L item_cell) else item_name in
      expense_row_data ws year row_num item_text category 0 months_raw
        as_of_month file_md5 now_iso
      ++ expense_data ws year items' months_raw as_of_month file_md5 now_iso
  end.

(** [ingest_expenses_monthly]: [None] is Python's [None]; its body sits in
    one [try] whose handler returns [None], so it never raises. *)
Definition ingest_expenses_monthly (wb : workbook)
    (as_of_month file_md5 now_iso : string) : option (list exp_row) :=
  match pick_sheet (sheetnames wb) DASHBOARD_SHEET_PATTERNS with
  | None => None
  | Some sheet_name =>
      if negb (nonempty sheet_name) then None
      else
        match get_sheet wb sheet_name with
        | Raise _ => None
        | Ok ws =>
            let months_raw := expense_months ws in
            match int_of_str L (split_head "-" as_of_month) with
            | None => None  (* [int(...)] raised *)
            | Some year =>
                let data := expense_data ws year expense_items months_raw
                              as_of_month file_md5 now_iso in
                match data with
                | [] => None
                | _ => Some data
                end
            end
        end
  end.

(** ** Lease-snapshot extractor *)

(** [extract_building]: the first 'A' or 'B' of the uppercased suite id. *)
Definition upper_ascii (c : ascii) : ascii :=
  let n := nat_of_ascii c in
  if (97 <=? n)%nat && (n <=? 122)%nat then ascii_of_nat (n - 32) else c.

Fixpoint search_AB (s : string) : option string :=
  match s with
  | EmptyString => None
  | String c s' =>
      let u := upper_ascii c in
      if Ascii.eqb u "A" || Ascii.eqb u "B"
      then Some (String u EmptyString) else search_AB s'
  end.

Definition extract_building (suite_id : pyval) : option string :=
  if pd_isna suite_id then None else search_AB (py_str L suite_id).

(** The dict [column_map]. *)
Definition column_map : list (string * string) :=
  [ ("Suite", "suite_id"); ("Tenant", "tenant"); ("Sq Ft", "sqft");
    ("Monthly Rent ($)", "rent_monthly"); ("Annual Rent ($)", "rent_annual") ].

(** [df.rename(columns=rename_dict)] on the labels. *)
Definition rename_columns (cols : list string) : list string :=
  map (fun c => match dict_get column_map c with Some c' => c' | None => c end)
      cols.

(** The position of the first column labelled [name]. *)
Fixpoint col_index (name : string) (cols : list string) : option nat :=
  match cols with
  | [] => None
  | c :: cols' =>
      if String.eqb c name then Some 0 else S <$> col_index name cols'
  end.

(** How many columns are labelled [name]. *)
Definition col_count (name : string) (cols : list string) : nat :=
  length (filter (fun c => String.eqb c name = true) cols).

(** [row[name]]; a missing cell reads as null. *)
Definition row_get (cols : list string) (row : list pyval) (name : string)
    : option pyval :=
  match col_index name cols with
  | Some i => Some (nth i row PyNone)
  | None => None
  end.

(** One element of [pd.to_numeric(series, errors='coerce')]. *)
Definition coerce_numeric (v : pyval) : float :=
  match v with
  | PyNone => nan
  | PyFloat x => x
  | _ => match to_numeric L v with Some x => x | None => nan end
  end.

(** A numeric column of the frame, or the constant [0.0] when the column
    is absent. *)
Definition numeric_field (cols : list string) (row : list pyval)
    (name : string) : float :=
  match row_get cols row name with
  | Some v => coerce_numeric v
  | None => 0%float
  end.

(** [df["suite_id"].fillna("").astype(str)], or the generated placeholder
    [SUITE_{i+1}] when the frame has no such column; [i] is the position of
    the row in the frame. *)
Definition suite_text (cols : list string) (i : nat) (row : list pyval)
    : string :=
  match row_get cols row "suite_id" with
  | Some v => if pd_isna v then "" else py_str L v
  | None => "SUITE_" +:+ str_nat (i + 1)
  end.

(** The lambda of [rent_psf_yr]. *)
Definition rent_per_sqft (rent_annual_v sqft_v : float) : float :=
  if PrimFloat.ltb 0%float sqft_v then PrimFloat.div rent_annual_v sqft_v
  else 0%float.

(** The record built from one row that survives the suite-id filter. *)
Definition lease_record (cols : list string) (i : nat) (row : list pyval)
    (as_of_month file_md5 now_iso : string) : result lease_row :=
  let suite := suite_text cols i row in
  let tenant_v :=
    match row_get cols row "tenant" with
    | Some v => v
    | None => PyStr "Unknown"
    end in
  let sqft_v := numeric_field cols row "sqft" in
  let rent_monthly_v := numeric_field cols row "rent_monthly" in
  let rent_annual_v := numeric_field cols row "rent_annual" in
  vacant ← is_vacant L tenant_v VACANCY_PATTERNS;
  own_use ← is_own_use L (PyStr (py_str L tenant_v)) (PyStr suite)
              OWN_USE_PATTERNS;
  Ok {| l_as_of_month := as_of_month; suite_id := suite;
        building := extract_building (PyStr suite); tenant := tenant_v;
        sqft := sqft_v; rent_monthly := rent_monthly_v;
        rent_annual := rent_annual_v;
        rent_psf_yr := rent_per_sqft rent_annual_v sqft_v;
        l_is_vacant := vacant; l_is_own_use := own_use;
        l_file_md5 := file_md5; l_ingested_at := now_iso |}.

(** The rows of the frame from position [i] on: a row whose suite id is blank
    after [strip] is removed, the others become records. *)
Fixpoint lease_records (cols : list string) (i : nat) (rs : list (list pyval))
    (as_of_month file_md5 now_iso : string) : result (list lease_row) :=
  match rs with
  | [] => Ok []
  | row :: rs' =>
      if nonempty (strip (suite_text cols i row))
      then
        r ← lease_record cols i row as_of_month file_md5 now_iso;
        tail ← lease_records cols (S i) rs' as_of_month file_md5 now_iso;
        Ok (r :: tail)
      else lease_records cols (S i) rs' as_of_month file_md5 now_iso
  end.

(** The canonical labels the extractor reads by name. *)
Definition lease_labels : list string :=
  ["suite_id"; "tenant"; "sqft"; "rent_monthly"; "rent_annual"].

(** The extractor from the cleaned frame on.  A label that occurs twice
    after the renaming makes pandas hand back a frame where the code expects
    a column, and the extraction raises. *)
Definition lease_from_frame (df : frame)
    (as_of_month file_md5 now_iso : string) : result (list lease_row) :=
  let cols := rename_columns (columns df) in
  if forallb (fun name => (col_count name cols <=? 1)%nat) lease_labels
  then lease_records cols 0 (rows df) as_of_month file_md5 now_iso
  else Raise PandasError.

Definition ingest_lease_rate_snapshot (wb : workbook)
    (as_of_month file_md5 now_iso : string) : result (list lease_row) :=
  match pick_sheet (sheetnames wb) LEASE_RATE_SHEET_PATTERNS with
  | None => Raise (ValueError "Could not find lease/rate sheet")
  | Some sheet_name =>
      if negb (nonempty sheet_name)
      then Raise (ValueError "Could not find lease/rate sheet")
      else
        ws ← get_sheet wb sheet_name;
        match read_excel L 3 ws with
        | None => Raise PandasError
        | Some df =>
            lease_from_frame (clean_dataframe L df) as_of_month file_md5 now_iso
        end
  end.

End Extractors.
(** ** Period detector ([etl/utils.py], [detect_as_of_month]) *)

Definition digit_char (d : nat) : ascii := ascii_of_nat (48 + d mod 10).

Definition is_digit (c : ascii) : bool :=
  let n := nat_of_ascii c in (48 <=? n)%nat && (n <=? 57)%nat.

(** [t.strftime('%Y-%m')]: a four-digit year (a [datetime] year is between 1
    and 9999) and a two-digit month. *)
Definition strftime_Ym (t : timestamp) : string :=
  let y := ts_year t in
  let m := ts_month t in
  String (digit_char (y / 1000)) (String (digit_char (y / 100))
    (String (digit_char (y / 10)) (String (digit_char y)
      (String "-" (String (digit_char (m / 10))
        (String (digit_char m) EmptyString)))))).

(** The regular expression [(20\d{2})[-_](\d{2})] matched at the start of
    [s]: the two groups. *)
Definition match_ym_here (s : string) : option (string * string) :=
  match s with
  | String c1 (String c2 (String c3 (String c4 (String c5 (String c6
      (String c7 _)))))) =>
      if Ascii.eqb c1 "2" && Ascii.eqb c2 "0" && is_digit c3 && is_digit c4
         && (Ascii.eqb c5 "-" || Ascii.eqb c5 "_")
         && is_digit c6 && is_digit c7
      then Some (String c1 (String c2 (String c3 (String c4 EmptyString))),
                 String c6 (String c7 EmptyString))
      else None
  | _ => None
  end.

(** [re.search(r'(20\d{2})[-_](\d{2})', s)]: the leftmost match. *)
Fixpoint re_search_ym (s : string) : option (string * string) :=
  match match_ym_here s with
  | Some g => Some g
  | None =>
      match s with
      | EmptyString => None
      | String _ s' => re_search_ym s'
      end
  end.

Section Detector.

Variable L : Lib.

(** Strategy 1, inside its [try]: the first non-null value of the column
    whose label is "month" in lowercase; [None] when the column is absent or
    [iloc[0]] raises on an empty column. *)
Definition month_column_first (df : frame) : option pyval :=
  match list_find (fun c => lower c = "month") (columns df) with
  | None => None
  | Some (i, _) =>
      head (filter (fun v => pd_isna v = false)
                   (map (fun row => nth i row PyNone) (rows df)))
  end.

Definition detect_from_dashboard (wb : workbook)
    (dashboard_sheet_name : option string) : option timestamp :=
  match dashboard_sheet_name with
  | None => None
  | Some name =>
      if nonempty name && bool_decide (name ∈ sheetnames wb)
      then
        match get_sheet wb name with
        | Raise _ => None
        | Ok ws =>
            match read_excel L 28 ws with
            | None => None
            | Some df =>
                match month_column_first df with
                | None => None
                | Some first_month => to_datetime L first_month
                end
            end
        end
      else None
  end.

(** Strategy 2. [cell.value and isinstance(cell.value, str) and
    'period' in cell.value.lower()] *)
Definition is_period_cell (v : pyval) : bool :=
  match v with
  | PyStr s => nonempty s && py_in "period" (lower s)
  | _ => false
  end.

(** [for offset in [1, 2]] at the cell in row [r], column [c]. *)
Fixpoint scan_offsets (ws : grid) (r c : nat) (offsets : list nat)
    : option timestamp :=
  match offsets with
  | [] => None
  | offset :: rest =>
      let adjacent := cell_value ws r (c + offset) in
      if truthy adjacent
      then match to_datetime L adjacent with
           | Some parsed => Some parsed
           | None => scan_offsets ws r c rest
           end
      else scan_offsets ws r c rest
  end.

(** [for cell in row], the head of [cells] being in column [c]. *)
Fixpoint scan_cells (ws : grid) (r c : nat) (cells : list pyval)
    : option timestamp :=
  match cells with
  | [] => None
  | v :: cells' =>
      match (if is_period_cell v then scan_offsets ws r c [1; 2] else None) with
      | Some parsed => Some parsed
      | None => scan_cells ws r (S c) cells'
      end
  end.

(** [for row in ws.iter_rows(max_row=50)], the head of [rs] being row [r]. *)
Fixpoint scan_rows (ws : grid) (r : nat) (rs : list (list pyval))
    : option timestamp :=
  match rs with
  | [] => None
  | cells :: rs' =>
      match scan_cells ws r 1 cells with
      | Some parsed => Some parsed
      | None => scan_rows ws (S r) rs'
      end
  end.

(** [for sheet_name in wb.sheetnames] *)
Fixpoint scan_sheets (wb : workbook) (names : list string) : option timestamp :=
  match names with
  | [] => None
  | sheet_name :: names' =>
      match get_sheet wb sheet_name with
      | Raise _ => scan_sheets wb names'
      | Ok ws =>
          match scan_rows ws 1 (firstn 50 ws) with
          | Some parsed => Some parsed
          | None => scan_sheets wb names'
          end
      end
  end.

Definition detect_from_period_cell (wb : workbook) : option timestamp :=
  scan_sheets wb (sheetnames wb).

(** [stem] is [Path(excel_path).stem]; [now] is [datetime.now()]. *)
Definition detect_as_of_month (wb : workbook) (stem : string)
    (dashboard_sheet_name : option string) (now : timestamp) : string :=
  match detect_from_dashboard wb dashboard_sheet_name with
  | Some parsed => strftime_Ym parsed
  | None =>
      match detect_from_period_cell wb with
      | Some parsed => strftime_Ym parsed
      | None =>
          match re_search_ym stem with
          | Some (year, month) => year +:+ "-" +:+ month
          | None => strftime_Ym now
          end
      end
  end.

End Detector.

(** ** The period detector in the words of its contract *)

(** A text of the form YYYY-MM: four digits, a hyphen, two digits. *)
Definition is_year_month (s : string) : bool :=
  match s with
  | String y1 (String y2 (String y3 (String y4 (String sep (String m1
      (String m2 EmptyString)))))) =>
      is_digit y1 && is_digit y2 && is_digit y3 && is_digit y4
      && Ascii.eqb sep "-" && is_digit m1 && is_digit m2
  | _ => false
  end.

Section DetectorSpec.

Variable L : Lib.

(** The 1st and the 2nd cell to the right of row [r], column [c], those
    that are not empty. *)
Definition right_neighbours (ws : grid) (r c : nat) : list pyval :=
  filter (fun v => truthy v = true)
         [cell_value ws r (c + 1); cell_value ws r (c + 2)].

(** The cells offered to the date parser by the "period" cells of one row:
    cell by cell from column A on. *)
Definition row_candidates (ws : grid) (r : nat) (cells : list pyval)
    : list pyval :=
  concat (imap (fun j v => if is_period_cell v
                           then right_neighbours ws r (S j) else [])
               cells).

(** Row by row over the first 50 rows of a sheet. *)
Definition sheet_candidates (ws : grid) : list pyval :=
  concat (imap (fun i cells => row_candidates ws (S i) cells) (firstn 50 ws)).

(** Sheet by sheet in workbook order. *)
Definition period_candidates (w : workbook) : list pyval :=
  concat (map (fun name => match get_sheet w name with
                           | Ok ws => sheet_candidates ws
                           | Raise _ => []
                           end) (sheetnames w)).

(** The first candidate that parses as a date. *)
Definition first_parsed (candidates : list pyval) : option timestamp :=
  head (omap (to_datetime L) candidates).

(** [year] and [mon] are the groups of a match of [20\d\d[-_]\d\d] that
    starts right after [before]. *)
Definition ym_match (s before year mon : string) : Prop :=
  exists c3 c4 sep m1 m2 after,
    s = before +:+ String "2" (String "0" (String c3 (String c4
          (String sep (String m1 (String m2 after)))))) /\
    is_digit c3 = true /\ is_digit c4 = true /\
    (sep = "-"%char \/ sep = "_"%char) /\
    is_digit m1 = true /\ is_digit m2 = true /\
    year = String "2" (String "0" (String c3 (String c4 EmptyString))) /\
    mon = String m1 (String m2 EmptyString).

(** The period in the words of the contract: the tiers in order, the first
    that succeeds wins, and the clock answers when none does. *)
Definition detect_as_of_month_spec (w : workbook) (stem_text : string)
    (dashboard_sheet_name : option string) (now_ts : timestamp) : string :=
  match detect_from_dashboard L w dashboard_sheet_name with
  | Some parsed => strftime_Ym parsed
  | None =>
      match first_parsed (period_candidates w) with
      | Some parsed => strftime_Ym parsed
      | None =>
          match re_search_ym stem_text with
          | Some (year, mon) => year +:+ "-" +:+ mon
          | None => strftime_Ym now_ts
          end
      end
  end.

End DetectorSpec.
(** ** Schemas ([etl/quality.py]) *)

Inductive dtype := DString | DFloat | DBool | DDateTime.

Inductive check :=
| Check_ge (bound : float)
| Check_isin (allowed : list string).

(** [Column(dtype, *checks, nullable=...)] *)
Record column := { col_dtype : dtype; col_checks : list check; nullable : bool }.

Definition Column (d : dtype) (cs : list check) (n : bool) : column :=
  {| col_dtype := d; col_checks := cs; nullable := n |}.

Definition schema_dashboard_monthly : list (string * column) :=
  [ ("as_of_month", Column DString [] false);
    ("month", Column DDateTime [] false);
    ("rent_base", Column DFloat [Check_ge 0%float] true);
    ("collected", Column DFloat [Check_ge 0%float] true);
    ("uncollected", Column DFloat [] true);
    ("leased_sqft", Column DFloat [Check_ge 0%float] true);
    ("price_per_sf_yr", Column DFloat [Check_ge 0%float] true);
    ("_file_md5", Column DString [] false);
    ("_ingested_at", Column DString [] false) ].

Definition schema_lease_rate : list (string * column) :=
  [ ("as_of_month", Column DString [] false);
    ("suite_id", Column DString [] false);
    ("building", Column DString [Check_isin ["A"; "B"]] true);
    ("tenant", Column DString [] false);
    ("sqft", Column DFloat [Check_ge 0%float] true);
    ("rent_monthly", Column DFloat [Check_ge 0%float] true);
    ("rent_annual", Column DFloat [Check_ge 0%float] true);
    ("rent_psf_yr", Column DFloat [Check_ge 0%float] true);
    ("is_vacant", Column DBool [] false);
    ("is_own_use", Column DBool [] false);
    ("_file_md5", Column DString [] false);
    ("_ingested_at", Column DString [] false) ].

(** A stored cell, as the validator reads it back from a parquet file. *)
Inductive value :=
| VNull
| VStr (s : string)
| VFloat (x : float)
| VBool (b : bool)
| VDate (s : string).

Definition value_of_float (o : option float) : value :=
  match o with
  | Some x => VFloat x
  | None => VNull
  end.

Definition value_of_pyval (v : pyval) : value :=
  match v with
  | PyNone => VNull
  | PyFloat x => VFloat x
  | PyStr s => VStr s
  | PyDate d => VDate (strftime_Ym d)
  end.

(** The columns of a stored MonthlyDashboardFact. *)
Definition dash_fields (r : dash_row) : list (string * value) :=
  [ ("month", VDate (month (d_record r)));
    ("rent_base", value_of_float (rent_base (d_record r)));
    ("collected", value_of_float (collected (d_record r)));
    ("uncollected", value_of_float (uncollected (d_record r)));
    ("leased_sqft", value_of_float (leased_sqft (d_record r)));
    ("price_per_sf_yr", value_of_float (price_per_sf_yr (d_record r)));
    ("as_of_month", VStr (d_as_of_month r));
    ("_file_md5", VStr (d_file_md5 r));
    ("_ingested_at", VStr (d_ingested_at r)) ].

(** The columns of a stored SuiteSnapshotFact ([final_cols]). *)
Definition lease_fields (r : lease_row) : list (string * value) :=
  [ ("as_of_month", VStr (l_as_of_month r));
    ("suite_id", VStr (suite_id r));
    ("building", match building r with Some b => VStr b | None => VNull end);
    ("tenant", value_of_pyval (tenant r));
    ("sqft", VFloat (sqft r));
    ("rent_monthly", VFloat (rent_monthly r));
    ("rent_annual", VFloat (rent_annual r));
    ("rent_psf_yr", VFloat (rent_psf_yr r));
    ("is_vacant", VBool (l_is_vacant r));
    ("is_own_use", VBool (l_is_own_use r));
    ("_file_md5", VStr (l_file_md5 r));
    ("_ingested_at", VStr (l_ingested_at r)) ].

(** pandera's reading of a schema with [coerce=True]: a null passes when the
    column is nullable and is not shown to the checks; any value coerces to
    text; the other types take the values stored with that type. *)
Definition value_is_null (v : value) : bool :=
  match v with
  | VNull => true
  | VFloat x => is_nan x
  | _ => false
  end.

Definition coerces_to (d : dtype) (v : value) : bool :=
  match d, v with
  | DString, _ => true
  | DFloat, VFloat _ => true
  | DBool, VBool _ => true
  | DDateTime, VDate _ => true
  | _, _ => false
  end.

Definition check_holds (c : check) (v : value) : bool :=
  match c, v with
  | Check_ge bound, VFloat x => PrimFloat.leb bound x
  | Check_isin allowed, VStr s => bool_decide (s ∈ allowed)
  | _, _ => false
  end.

Definition column_valid (c : column) (v : value) : bool :=
  if value_is_null v then nullable c
  else coerces_to (col_dtype c) v
       && forallb (fun k => check_holds k v) (col_checks c).

Definition row_valid (schema : list (string * column))
    (fields : list (string * value)) : bool :=
  forallb (fun nc => match dict_get fields (fst nc) with
                     | Some v => column_valid (snd nc) v
                     | None => false
                     end) schema.

(** [schema.validate(df, lazy=True)] does not raise. *)
Definition schema_validate (schema : list (string * column))
    (df : list (list (string * value))) : bool :=
  forallb (row_valid schema) df.

(** ** The bronze store and the ingestion log *)

Record log_entry := {
  log_file_md5 : string;
  log_as_of_month : string;
  rows_ingested : nat;
  started_at : string;
  finished_at : string;
  status : string
}.

(** The three partitioned tables under [data/bronze], keyed by
    [as_of_month]: the one parquet file
    [<table>/as_of_month=<m>/<table>_<m>.parquet] of each partition, and the
    lines of [ingestion_log.csv]. *)
Record bronze := {
  raw_dashboard_monthly : gmap string (list dash_row);
  raw_expenses_monthly : gmap string (list exp_row);
  raw_lease_rate_snapshot : gmap string (list lease_row);
  ingestion_log : list log_entry
}.

(** A frame together with the [table_name] it is saved under. *)
Inductive table_frame :=
| dashboard (df : list dash_row)
| expenses (df : list exp_row)
| lease_rate (df : list lease_row).

(** [save_bronze_partition(df, table_name, as_of_month)]: the file of the
    partition is written, replacing a file of the same name. *)
Definition save_bronze_partition (df : table_frame) (as_of_month : string)
    (st : bronze) : bronze :=
  match df with
  | dashboard d =>
      {| raw_dashboard_monthly := <[as_of_month := d]> (raw_dashboard_monthly st);
         raw_expenses_monthly := raw_expenses_monthly st;
         raw_lease_rate_snapshot := raw_lease_rate_snapshot st;
         ingestion_log := ingestion_log st |}
  | expenses d =>
      {| raw_dashboard_monthly := raw_dashboard_monthly st;
         raw_expenses_monthly := <[as_of_month := d]> (raw_expenses_monthly st);
         raw_lease_rate_snapshot := raw_lease_rate_snapshot st;
         ingestion_log := ingestion_log st |}
  | lease_rate d =>
      {| raw_dashboard_monthly := raw_dashboard_monthly st;
         raw_expenses_monthly := raw_expenses_monthly st;
         raw_lease_rate_snapshot :=
           <[as_of_month := d]> (raw_lease_rate_snapshot st);
         ingestion_log := ingestion_log st |}
  end.

(** [log_ingestion]: one line appended. *)
Definition log_ingestion (file_md5 as_of_month : string) (n : nat)
    (started finished : string) (outcome : string) (st : bronze) : bronze :=
  {| raw_dashboard_monthly := raw_dashboard_monthly st;
     raw_expenses_monthly := raw_expenses_monthly st;
     raw_lease_rate_snapshot := raw_lease_rate_snapshot st;
     ingestion_log :=
       ingestion_log st ++
       [ {| log_file_md5 := file_md5; log_as_of_month := as_of_month;
            rows_ingested := n; started_at := started;
            finished_at := finished; status := outcome |} ] |}.

(** [check_already_ingested(file_md5, as_of_month, partition_path)] on the
    dashboard table: the partition exists, its file is read, and the digest
    is looked up among the values of its [_file_md5] column. *)
Definition check_already_ingested (file_md5 as_of_month : string)
    (partition : gmap string (list dash_row)) : bool :=
  match partition !! as_of_month with
  | None => false
  | Some sample => bool_decide (file_md5 ∈ map d_file_md5 sample)
  end.

(** ** The ingestion run ([etl/ingest_excel.py], [main]) *)

(** The file at [file_path]: the stem of its name, the MD5 digest of its
    bytes and the workbook they encode. *)
Record source_file := { stem : string; content_md5 : string; wb : workbook }.

(** The clock of one run: [datetime.now()] as a month and in ISO format. *)
Record clock := { now : timestamp; now_iso : string }.

Section Run.

Variable L : Lib.

(** The three extraction steps as [main] calls them, each with the workbook,
    [as_of_month], [file_md5] and the time stamp. *)
Variable dashboard_step :
  workbook -> string -> string -> string -> result (list dash_row).
Variable expenses_step :
  workbook -> string -> string -> string -> result (option (list exp_row)).
Variable lease_step :
  workbook -> string -> string -> string -> result (list lease_row).

Definition main_with (f : source_file) (clk : clock) (st : bronze)
    : bronze * result unit :=
  let started := now_iso clk in
  let file_md5 := content_md5 f in
  let dashboard_sheet := pick_sheet (sheetnames (wb f)) DASHBOARD_SHEET_PATTERNS in
  let as_of_month := detect_as_of_month L (wb f) (stem f) dashboard_sheet (now clk) in
  if check_already_ingested file_md5 as_of_month (raw_dashboard_monthly st)
  then (log_ingestion file_md5 as_of_month 0 started (now_iso clk) "skipped" st,
        Ok tt)
  else
    match dashboard_step (wb f) as_of_month file_md5 (now_iso clk) with
    | Raise e =>
        (log_ingestion file_md5 as_of_month 0 started (now_iso clk) "failed" st,
         Raise e)
    | Ok df_dashboard =>
        let st1 := save_bronze_partition (dashboard df_dashboard) as_of_month st in
        let total1 := length df_dashboard in
        let '(st2, total2) :=
          match expenses_step (wb f) as_of_month file_md5 (now_iso clk) with
          | Ok (Some df_expenses) =>
              if (0 <? length df_expenses)%nat
              then (save_bronze_partition (expenses df_expenses) as_of_month st1,
                    total1 + length df_expenses)
              else (st1, total1)
          | Ok None => (st1, total1)
          | Raise _ => (st1, total1)
          end in
        match lease_step (wb f) as_of_month file_md5 (now_iso clk) with
        | Raise e =>
            (log_ingestion file_md5 as_of_month total2 started (now_iso clk)
               "failed" st2,
             Raise e)
        | Ok df_lease =>
            let st3 := save_bronze_partition (lease_rate df_lease) as_of_month st2 in
            (log_ingestion file_md5 as_of_month (total2 + length df_lease)
               started (now_iso clk) "success" st3,
             Ok tt)
        end
    end.

End Run.

(** [main] with the extractors of the module. *)
Definition main (L : Lib) : source_file -> clock -> bronze -> bronze * result unit :=
  main_with L
    (ingest_dashboard_monthly L)
    (fun w m h t => Ok (ingest_expenses_monthly L w m h t))
    (ingest_lease_rate_snapshot L).

(** [validate_partition] on the file of a partition: [Raise] is the
    [SchemaErrors] of hard-fail mode. *)
Definition validate_partition (schema : list (string * column))
    (df : list (list (string * value))) (hard_fail : bool) : result bool :=
  if schema_validate schema df then Ok true
  else if hard_fail then Raise PandasError else Ok false.

(** ** A library instance for the worked examples

    It agrees with Python on every call the examples below make: the sheets
    of the examples hold text in their header and label cells and numbers
    elsewhere, their year is written in four digits, and their lease sheet
    has its header in row 4 and no blank row, blank column or padded text.
    Calls the examples never make get a fixed answer. *)

Definition all_digits (s : string) : bool :=
  nonempty s && (fix go (s : string) : bool :=
                   match s with
                   | EmptyString => true
                   | String c s' => is_digit c && go s'
                   end) s.

Definition example_read_excel (header : nat) (ws : grid) : option frame :=
  match skipn header ws with
  | [] => None
  | labels :: data =>
      Some {| columns := map (fun v => match v with
                                       | PyStr s => s
                                       | _ => "Unnamed"
                                       end) labels;
              rows := data |}
  end.

Definition example_lib : Lib :=
  {| str_of := fun _ => "nan";
     float_of_str := fun _ => None;
     int_of_str := fun s => if all_digits s then Some s else None;
     to_numeric := fun _ => None;
     to_datetime := fun v => match v with PyDate d => Some d | _ => None end;
     read_excel := example_read_excel;
     clean_dataframe := fun df => df |}.

(** The sheets of the examples.  The dashboard sheet has its month labels in
    row 29 from column I on (column H holds "Collection Target") and the
    base rent in row 30; the lease sheet has its header in row 4. *)
Definition blank_rows (n : nat) : grid := repeat [] n.

Definition blanks (n : nat) : list pyval := repeat PyNone n.

Definition example_dashboard (labels rents : list pyval) : grid :=
  blank_rows 28
  ++ [blanks 7 ++ [PyStr "Collection Target"] ++ labels]
  ++ [blanks 8 ++ rents].

Definition lease_header : list pyval :=
  [PyStr "Suite"; PyStr "Tenant"; PyStr "Sq Ft"; PyStr "Monthly Rent ($)";
   PyStr "Annual Rent ($)"].

Definition example_lease (data : grid) : grid :=
  blank_rows 3 ++ [lease_header] ++ data.

Definition example_file (dashboard lease : grid) : source_file :=
  {| stem := "TCO_2025-01"; content_md5 := "9e107d9d372bb6826bd81d3542a419d6";
     wb := {| sheets := [("Dashboard", dashboard); ("Lease Rate", lease)] |} |}.

Definition example_clock : clock :=
  {| now := {| ts_year := 2025; ts_month := 3 |};
     now_iso := "2025-03-01T09:00:00" |}.

Definition empty_bronze : bronze :=
  {| raw_dashboard_monthly := ∅; raw_expenses_monthly := ∅;
     raw_lease_rate_snapshot := ∅; ingestion_log := [] |}.

(** Two suites, both labelled "101A". *)
Definition duplicate_suite_file : source_file :=
  example_file
    (example_dashboard [PyStr "January"] [PyFloat 1000])
    (example_lease
       [ [PyStr "101A"; PyStr "Acme"; PyFloat 500; PyFloat 1000; PyFloat 12000];
         [PyStr "101A"; PyStr "Bolt"; PyFloat 300; PyFloat 600; PyFloat 7200] ]).

(** A base rent of -5 for January. *)
Definition negative_rent_file : source_file :=
  example_file
    (example_dashboard [PyStr "January"] [PyFloat (-5)])
    (example_lease
       [ [PyStr "101A"; PyStr "Acme"; PyFloat 500; PyFloat 1000; PyFloat 12000] ]).

(** Month labels in Spanish: no label is a key of [month_map]. *)
Definition spanish_months_file : source_file :=
  example_file
    (example_dashboard [PyStr "Enero"; PyStr "Febrero"]
                       [PyFloat 1000; PyFloat 1100])
    (example_lease
       [ [PyStr "101A"; PyStr "Acme"; PyFloat 500; PyFloat 1000; PyFloat 12000] ]).

(** What the extractors return on the sheets of [duplicate_suite_file]. *)
Definition example_dashboard_rows : list dash_row :=
  Eval vm_compute in
  match ingest_dashboard_monthly example_lib (wb duplicate_suite_file)
          "2025-01" (content_md5 duplicate_suite_file) (now_iso example_clock)
  with
  | Ok df => df
  | Raise _ => []
  end.

Definition example_lease_rows : list lease_row :=
  Eval vm_compute in
  match ingest_lease_rate_snapshot example_lib (wb duplicate_suite_file)
          "2025-01" (content_md5 duplicate_suite_file) (now_iso example_clock)
  with
  | Ok df => df
  | Raise _ => []
  end.

(** A field that is null (NaN) or at least 0. *)
Definition null_or_nonneg (x : float) : bool := is_nan x || PrimFloat.leb 0%float x.

Definition opt_null_or_nonneg (o : option float) : bool :=
  match o with
  | None => true
  | Some x => null_or_nonneg x
  end.

(** ** Further parts of [etl/utils.py], [etl/config.py] and [etl/quality.py] *)

From stdpp Require Import sorting.

(** A dict literal: a later item replaces an earlier one with the same key. *)
Definition py_dict {V : Type} (items : list (string * V)) : gmap string V :=
  fold_left (fun d kv => <[fst kv := snd kv]> d) items ∅.

(** The items of [COLUMN_ALIASES], in source order; the key "$/sf/yr" is
    written twice. *)
Definition COLUMN_ALIASES_items : list (string * string) :=
  [ ("mes", "month"); ("month", "month");
    ("renta base", "rent_base"); ("rent base", "rent_base");
    ("base rent", "rent_base");
    ("cobrado", "collected"); ("collected", "collected");
    ("no cobrado", "uncollected"); ("uncollected", "uncollected");
    ("m2 rentados", "leased_sqft"); ("leased sqft", "leased_sqft");
    ("sqft arrendado", "leased_sqft");
    ("precio m2/año", "price_per_sf_yr");
    ("price per sf/yr", "price_per_sf_yr");
    ("$/sf/yr", "price_per_sf_yr");
    ("concepto", "item"); ("item", "item");
    ("proveedor", "vendor"); ("vendor", "vendor");
    ("real", "actual"); ("actual", "actual");
    ("presupuesto", "budget"); ("budget", "budget");
    ("varianza", "variance"); ("variance", "variance");
    ("suite", "suite_id"); ("suite_id", "suite_id");
    ("edificio", "building"); ("building", "building");
    ("inquilino", "tenant"); ("tenant", "tenant");
    ("m2", "sqft"); ("sqft", "sqft");
    ("renta mensual", "rent_monthly"); ("rent monthly", "rent_monthly");
    ("monthly rent", "rent_monthly");
    ("renta anual", "rent_annual"); ("rent annual", "rent_annual");
    ("annual rent", "rent_annual");
    ("renta $/m2/año", "rent_psf_yr"); ("rent psf yr", "rent_psf_yr");
    ("$/sf/yr", "rent_psf_yr") ].

Definition COLUMN_ALIASES : gmap string string := py_dict COLUMN_ALIASES_items.

(** [normalize_columns(df, alias_map)] on the labels of the frame:
    [str.lower], [str.strip], then [alias_map.get(x, x)]. *)
Definition normalize_label (alias_map : gmap string string) (label : string)
    : string :=
  let x := strip (lower label) in
  default x (alias_map !! x).

Definition normalize_columns (df : frame) (alias_map : gmap string string)
    : frame :=
  {| columns := map (normalize_label alias_map) (columns df);
     rows := rows df |}.

(** Some character of [s] is an uppercase ASCII letter. *)
Definition is_upper (c : ascii) : bool :=
  let n := nat_of_ascii c in (65 <=? n)%nat && (n <=? 90)%nat.

Fixpoint has_upper (s : string) : bool :=
  match s with
  | EmptyString => false
  | String c s' => is_upper c || has_upper s'
  end.

(** [s] is not empty and neither starts nor ends with white space. *)
Definition trimmed (s : string) : bool :=
  nonempty s && String.eqb (lstrip s) s && String.eqb (rstrip s) s.

(** [schema_expenses_monthly] *)
Definition schema_expenses_monthly : list (string * column) :=
  [ ("as_of_month", Column DString [] false);
    ("month", Column DDateTime [] false);
    ("item", Column DString [] false);
    ("actual", Column DFloat [Check_ge 0%float] true);
    ("expense_category",
     Column DString [Check_isin ["fixed"; "variable"; "other"]] false);
    ("_file_md5", Column DString [] false);
    ("_ingested_at", Column DString [] false) ].

(** The columns of a stored MonthlyExpenseFact. *)
Definition exp_fields (r : exp_row) : list (string * value) :=
  [ ("as_of_month", VStr (e_as_of_month r));
    ("month", VDate (e_month r));
    ("item", VStr (item r));
    ("actual", VFloat (actual r));
    ("expense_category", VStr (expense_category r));
    ("_file_md5", VStr (e_file_md5 r));
    ("_ingested_at", VStr (e_ingested_at r)) ].

(** ** Validation of a table ([validate_bronze_table]) and of the store
       ([etl/quality.py], [main]) *)

(** The quarantine area [data/bronze/_errors]: one report per call of
    [log_validation_errors], under (table, partition). *)
Definition quarantine := list (string * string).

(** [validate_partition] with its report: the partition holds the one file
    [df]; a file that fails is reported before the error is raised again
    (hard-fail mode) or the flag is cleared (soft mode). *)
Definition validate_partition_report (table_name partition_name : string)
    (schema : list (string * column)) (df : list (list (string * value)))
    (hard_fail : bool) (q : quarantine) : quarantine * result bool :=
  match validate_partition schema df hard_fail with
  | Ok true => (q, Ok true)
  | other => (q ++ [(table_name, partition_name)], other)
  end.

(** The loop of [validate_bronze_table] over the partitions, in the order of
    [sorted(...)]; [all_valid] is the flag so far. *)
Fixpoint validate_partitions (table_name : string)
    (schema : list (string * column))
    (partitions : list (string * list (list (string * value))))
    (hard_fail : bool) (all_valid : bool) (q : quarantine)
    : quarantine * result bool :=
  match partitions with
  | [] => (q, Ok all_valid)
  | (name, df) :: rest =>
      match validate_partition_report table_name name schema df hard_fail q with
      | (q', Ok valid) =>
          validate_partitions table_name schema rest hard_fail
            (if valid then all_valid else false) q'
      | (q', Raise e) =>
          if hard_fail then (q', Raise e)
          else validate_partitions table_name schema rest hard_fail false q'
      end
  end.

(** [validate_bronze_table(table_name, schema, hard_fail)] on the partitions
    of the table; a table without partitions is valid. *)
Definition validate_bronze_table (table_name : string)
    (schema : list (string * column))
    (partitions : list (string * list (list (string * value))))
    (hard_fail : bool) (q : quarantine) : quarantine * result bool :=
  validate_partitions table_name schema partitions hard_fail true q.

(** The partitions of a table as [sorted(table_path.iterdir())] lists them:
    by folder name [as_of_month=<m>]. *)
Definition partitions_of {R : Type} (fields : R -> list (string * value))
    (tbl : gmap string (list R)) : list (string * list (list (string * value))) :=
  map (fun kv => ("as_of_month=" +:+ fst kv, map fields (snd kv)))
      (merge_sort (fun a b => String.le (fst a) (fst b)) (map_to_list tbl)).

(** The loop of [main] in [etl/quality.py]: every table is validated in
    hard-fail mode, an exception clears [all_passed] and the loop goes on. *)
Fixpoint quality_tables
    (validations : list (string * (list (string * column)
                         * list (string * list (list (string * value))))))
    (all_passed : bool) (q : quarantine) : quarantine * bool :=
  match validations with
  | [] => (q, all_passed)
  | (table_name, (schema, partitions)) :: rest =>
      match validate_bronze_table table_name schema partitions true q with
      | (q', Ok passed) =>
          quality_tables rest (if passed then all_passed else false) q'
      | (q', Raise _) => quality_tables rest false q'
      end
  end.

(** [main()] of [etl/quality.py]: the exit status (0, or 1 from [exit(1)])
    and the reports written. *)
Definition quality_main (st : bronze) : quarantine * nat :=
  let validations :=
    [ ("dashboard", (schema_dashboard_monthly,
                     partitions_of dash_fields (raw_dashboard_monthly st)));
      ("expenses", (schema_expenses_monthly,
                    partitions_of exp_fields (raw_expenses_monthly st)));
      ("lease_rate", (schema_lease_rate,
                      partitions_of lease_fields (raw_lease_rate_snapshot st))) ] in
  let '(q, all_passed) := quality_tables validations true [] in
  (q, if all_passed then 0 else 1).

(** The numeric checks of the three schemas on a stored record, and the
    checks on its other columns that can fail. *)
Definition dash_numbers_ok (r : dash_row) : bool :=
  opt_null_or_nonneg (rent_base (d_record r))
  && opt_null_or_nonneg (collected (d_record r))
  && opt_null_or_nonneg (leased_sqft (d_record r))
  && opt_null_or_nonneg (price_per_sf_yr (d_record r)).

Definition lease_numbers_ok (r : lease_row) : bool :=
  null_or_nonneg (sqft r) && null_or_nonneg (rent_monthly r)
  && null_or_nonneg (rent_annual r) && null_or_nonneg (rent_psf_yr r).

Definition building_ok (r : lease_row) : bool :=
  match building r with
  | None => true
  | Some b => bool_decide (b ∈ ["A"; "B"])
  end.

Definition category_ok (r : exp_row) : bool :=
  bool_decide (expense_category r ∈ ["fixed"; "variable"; "other"]).

(** The partitions of a list that a schema rejects, and the report of the
    first of them. *)
Definition invalid_partitions (schema : list (string * column))
    (partitions : list (string * list (list (string * value))))
    : list (string * list (list (string * value))) :=
  filter (fun p => schema_validate schema (snd p) = false) partitions.

Definition first_report (table_name : string)
    (bad : list (string * list (list (string * value)))) : quarantine :=
  match bad with
  | [] => []
  | p :: _ => [(table_name, fst p)]
  end.

(** A workbook with a dashboard sheet and no lease sheet. *)
Definition no_lease_file : source_file :=
  {| stem := "TCO_2025-01"; content_md5 := "0cc175b9c0f1b6a831c399e269772661";
     wb := {| sheets :=
                [("Dashboard",
                  example_dashboard [PyStr "January"] [PyFloat 1000])] |} |}.

(** A cleaned frame without a suite column. *)
Definition no_suite_frame : frame :=
  {| columns := ["Tenant"; "Sq Ft"];
     rows := [ [PyStr "Acme"; PyFloat 500]; [PyStr "Bolt"; PyFloat 300] ] |}.

(** The frame of the lease sheet of [duplicate_suite_file]. *)
Definition example_lease_frame : frame :=
  {| columns := ["Suite"; "Tenant"; "Sq Ft"; "Monthly Rent ($)"; "Annual Rent ($)"];
     rows :=
       [ [PyStr "101A"; PyStr "Acme"; PyFloat 500; PyFloat 1000; PyFloat 12000];
         [PyStr "101A"; PyStr "Bolt"; PyFloat 300; PyFloat 600; PyFloat 7200] ] |}.

(** The workbook with every sheet cut after its 50th row. *)
Definition first_50_rows (w : workbook) : workbook :=
  {| sheets := map (fun p => (fst p, firstn 50 (snd p))) (sheets w) |}.

(** A dashboard sheet with expenses: month labels in row 40 from column I
    on, electricity (row 42) 120 in January and "n/a" in February. *)
Definition expenses_file : source_file :=
  {| stem := "TCO_2025-01"; content_md5 := "92eb5ffee6ae2fec3ad71c777531578f";
     wb := {| sheets :=
       [("Dashboard",
         blank_rows 28
         ++ [blanks 8 ++ [PyStr "January"; PyStr "February"]]
         ++ [blanks 8 ++ [PyFloat 1000; PyFloat 1100]]
         ++ blank_rows 9
         ++ [blanks 8 ++ [PyStr "January"; PyStr "February"]]
         ++ [[]]
         ++ [blanks 8 ++ [PyFloat 120; PyStr "n/a"]]);
        ("Lease Rate",
         example_lease
           [ [PyStr "101A"; PyStr "Acme"; PyFloat 500; PyFloat 1000;
              PyFloat 12000] ])] |} |}.

(** ** Facts about the text primitives *)

Section TextFacts.

Lemma app_nil_l (s : string) : "" +:+ s = s.
Proof. reflexivity. Qed.

Lemma app_cons (c : ascii) (a s : string) :
  String c a +:+ s = String c (a +:+ s).
Proof. reflexivity. Qed.

Lemma app_nil_r (s : string) : s +:+ "" = s.
Proof. induction s as [|c s IH]; [reflexivity|]. rewrite app_cons, IH. reflexivity. Qed.

Lemma app_assoc (a b c : string) : (a +:+ b) +:+ c = a +:+ b +:+ c.
Proof.
  induction a as [|x a IH]; [reflexivity|]. rewrite !app_cons, IH. reflexivity.
Qed.

Lemma startswith_spec (p s : string) :
  startswith p s = true <-> exists b, s = p +:+ b.
Proof.
  revert s. induction p as [|a p IH]; intros s; simpl.
  - split; [intros _; exists s; reflexivity | reflexivity].
  - destruct s as [|b s]; simpl.
    + split; [discriminate | intros [r Hr]; rewrite app_cons in Hr; discriminate].
    + destruct (Ascii.eqb_spec a b) as [->|Hab].
      * rewrite IH. split; intros [r Hr]; exists r; rewrite app_cons in *; congruence.
      * split; [discriminate | intros [r Hr]; rewrite app_cons in Hr; congruence].
Qed.

Lemma py_in_spec (p s : string) : py_in p s = true <-> is_substring p s.
Proof.
  unfold is_substring. induction s as [|c s IH]; simpl.
  - rewrite startswith_spec. split.
    + intros [b Hb]. exists EmptyString, b. exact Hb.
    + intros [a [b Hab]]. destruct a; [exists b; exact Hab | discriminate].
  - rewrite orb_true_iff, startswith_spec, IH. split.
    + intros [[b Hb] | [a [b Hab]]].
      * exists EmptyString, b. exact Hb.
      * exists (String c a), b. rewrite app_cons. congruence.
    + intros [a [b Hab]]. destruct a as [|c' a].
      * left. exists b. exact Hab.
      * right. exists a, b. rewrite app_cons in Hab. congruence.
Qed.

Lemma py_in_false (p s : string) : py_in p s = false <-> ~ is_substring p s.
Proof.
  rewrite <- py_in_spec. destruct (py_in p s); split; congruence.
Qed.

End TextFacts.

(** ** The sheet locator returns the first hit in priority order *)

Section PickSheet.

(** A sheet matches a pattern when the lowercased pattern occurs in the
    lowercased sheet name. *)
Definition sheet_matches (pattern name : string) : Prop :=
  is_substring (lower pattern) (lower name).

Lemma pick_sheet_scan_none (pl : string) (names : list string) :
  pick_sheet_scan pl (map lower names) names = None <->
  forall s, s ∈ names -> ~ is_substring pl (lower s).
Proof.
  induction names as [|n names IH]; simpl.
  - split; [intros _ s Hs; inversion Hs | reflexivity].
  - destruct (py_in pl (lower n)) eqn:E.
    + split; [discriminate|]. intros H. exfalso.
      apply (H n); [left | apply py_in_spec; exact E].
    + rewrite IH. apply py_in_false in E. split.
      * intros H s Hs. inversion Hs; subst; auto.
      * intros H s Hs. apply H. right. exact Hs.
Qed.

Lemma pick_sheet_scan_some (pl : string) (names : list string) (name : string) :
  pick_sheet_scan pl (map lower names) names = Some name ->
  exists j, names !! j = Some name /\ is_substring pl (lower name) /\
    forall j' s, j' < j -> names !! j' = Some s -> ~ is_substring pl (lower s).
Proof.
  induction names as [|n names IH]; simpl; [discriminate|].
  destruct (py_in pl (lower n)) eqn:E.
  - intros [= <-]. exists 0. split; [reflexivity|]. split.
    + apply py_in_spec; exact E.
    + intros j' s Hj. lia.
  - intros H. destruct (IH H) as (j & Hj & Hin & Hbefore).
    exists (S j). split; [exact Hj|]. split; [exact Hin|].
    intros [|j'] s Hlt Hs; simpl in Hs.
    + injection Hs as <-. apply py_in_false; exact E.
    + apply (Hbefore j'); [lia | exact Hs].
Qed.

End PickSheet.


(** ** The text classifiers *)

Section Classifiers.

Variable L : Lib.

Lemma lower_app (a b : string) : lower (a +:+ b) = lower a +:+ lower b.
Proof.
  induction a as [|c a IH]; [reflexivity|].
  rewrite app_cons. simpl. rewrite IH, app_cons. reflexivity.
Qed.

Lemma lower_ascii_space (c : ascii) :
  is_space c = true -> lower_ascii c = c.
Proof.
  unfold is_space, lower_ascii. intros H.
  destruct ((65 <=? nat_of_ascii c)%nat && (nat_of_ascii c <=? 90)%nat) eqn:E;
    [|reflexivity].
  exfalso. apply andb_true_iff in E as [E1 E2].
  apply Nat.leb_le in E1. apply Nat.leb_le in E2.
  apply orb_true_iff in H as [H|H]; apply andb_true_iff in H as [H1 H2];
    apply Nat.leb_le in H1; apply Nat.leb_le in H2; lia.
Qed.

Lemma strip_lower_all_space (s : string) :
  all_space s = true -> strip (lower s) = "".
Proof.
  unfold strip. induction s as [|c s IH]; [reflexivity|]. simpl.
  intros H. apply andb_true_iff in H as [Hc Hs].
  rewrite (lower_ascii_space c Hc), Hc. exact (IH Hs).
Qed.

Lemma rstrip_app_keep (v w : string) :
  rstrip w <> "" -> rstrip (v +:+ w) = v +:+ rstrip w.
Proof.
  intros Hw. induction v as [|c v IH]; [reflexivity|].
  rewrite !app_cons. simpl. rewrite IH.
  destruct (v +:+ rstrip w) as [|d r] eqn:E; [|reflexivity].
  exfalso. destruct v; [rewrite app_nil_l in E; contradiction|].
  rewrite app_cons in E. discriminate.
Qed.

Lemma lstrip_app_keep (u w : string) :
  lstrip w = w -> exists v, lstrip (u +:+ " " +:+ w) = v +:+ w.
Proof.
  intros Hw. induction u as [|c u IH].
  - exists "". rewrite !app_nil_l, app_cons, app_nil_l. simpl. exact Hw.
  - rewrite app_cons. simpl. destruct (is_space c); [exact IH|].
    exists (String c u +:+ " "). rewrite app_assoc, app_cons. reflexivity.
Qed.

(** [any(pattern in s for pattern in patterns)] never raises on text. *)
Lemma py_any_contains (s : string) (patterns : list string) :
  py_any (fun pattern => py_contains (PyStr pattern) (PyStr s)) patterns
  = Ok (existsb (fun pattern => py_in pattern s) patterns).
Proof.
  induction patterns as [|p ps IH]; [reflexivity|].
  simpl. destruct (py_in p s); [reflexivity | exact IH].
Qed.

Lemma is_vacant_eq (tenant_name : pyval) (patterns : list string) :
  is_vacant L tenant_name patterns
  = Ok (pd_isna tenant_name || negb (truthy tenant_name)
        || existsb (fun pattern =>
                      py_in pattern (strip (lower (py_str L tenant_name))))
             patterns).
Proof.
  unfold is_vacant.
  destruct (pd_isna tenant_name || negb (truthy tenant_name)); [reflexivity|].
  simpl. apply py_any_contains.
Qed.

Lemma is_own_use_eq (tenant_name suite_id : pyval) (patterns : list string) :
  is_own_use L tenant_name suite_id patterns
  = Ok (existsb (fun pattern =>
          py_in pattern
            (strip (lower (py_str L tenant_name +:+ " " +:+ py_str L suite_id))))
          patterns).
Proof. unfold is_own_use. simpl. apply py_any_contains. Qed.

Lemma combined_101b (t : string) :
  exists v, strip (lower (t +:+ " " +:+ "101B")) = v +:+ "101b".
Proof.
  rewrite !lower_app. change (lower " ") with " ". change (lower "101B") with "101b".
  unfold strip.
  destruct (lstrip_app_keep (lower t) "101b" eq_refl) as [v Hv].
  exists v. rewrite Hv. rewrite rstrip_app_keep; [reflexivity | discriminate].
Qed.

End Classifiers.

(** C8. For suite id "101B" the owner-use classifier answers true: with the
    empty tenant text of the scenario, with any other tenant value (so
    whatever the vacancy phrases say about the tenant), and in every record
    the lease extractor builds for a row whose suite id is "101B". *)
Theorem is_own_use_101B (L : Lib) :
  is_own_use L (PyStr "") (PyStr "101B") OWN_USE_PATTERNS = Ok true /\
  (forall tenant_name : pyval,
     is_own_use L tenant_name (PyStr "101B") OWN_USE_PATTERNS = Ok true) /\
  (forall cols i row m h t r,
     lease_record L cols i row m h t = Ok r ->
     suite_id r = "101B" -> l_is_own_use r = true).
Proof.
  assert (forall tenant_name : pyval,
    is_own_use L tenant_name (PyStr "101B") OWN_USE_PATTERNS = Ok true) as H.
  { intros t. rewrite is_own_use_eq. f_equal.
    apply existsb_exists. exists "101b". split.
    - unfold OWN_USE_PATTERNS. simpl. tauto.
    - apply py_in_spec. simpl py_str at 2.
      destruct (combined_101b (py_str L t)) as [v Hv].
      exists v, "". rewrite Hv, app_nil_r. reflexivity. }
  split; [apply H|]. split; [exact H|].
  intros cols i row m h t r. unfold lease_record.
  rewrite is_vacant_eq. simpl.
  destruct (is_own_use L _ (PyStr (suite_text L cols i row)) OWN_USE_PATTERNS)
    as [b|e] eqn:E; simpl; [|discriminate].
  intros [= <-]. simpl. intros Hs. rewrite Hs, H in E. congruence.
Qed.

(** C9. On every tenant value and suite value (text, the empty text, [None],
    NaN, a number, a date) and every list of phrases, [is_vacant] and
    [is_own_use] return a boolean: no step of them raises. *)
Theorem classifiers_never_raise (L : Lib) :
  (forall (tenant_name : pyval) (patterns : list string),
     exists b : bool, is_vacant L tenant_name patterns = Ok b) /\
  (forall (tenant_name suite_id : pyval) (patterns : list string),
     exists b : bool, is_own_use L tenant_name suite_id patterns = Ok b).
Proof.
  split.
  - intros t ps. rewrite is_vacant_eq. eexists. reflexivity.
  - intros t s ps. rewrite is_own_use_eq. eexists. reflexivity.
Qed.

(** C10. [is_vacant] is true for [None], for NaN (a blank cell of a frame)
    and for the empty text.  A tenant
    text that is not empty and holds only white space is not taken for empty:
    its trimmed lowercase form is the empty text, the answer is whether some
    phrase occurs in that, and with the configured phrases it is false. *)
Theorem is_vacant_blank_text (L : Lib) :
  (forall patterns, is_vacant L PyNone patterns = Ok true) /\
  (forall patterns, is_vacant L (PyFloat nan) patterns = Ok true) /\
  (forall patterns, is_vacant L (PyStr "") patterns = Ok true) /\
  (forall s patterns, s <> "" -> all_space s = true ->
     strip (lower s) = "" /\
     is_vacant L (PyStr s) patterns
     = Ok (existsb (fun pattern => py_in pattern (strip (lower s))) patterns)) /\
  (forall s, s <> "" -> all_space s = true ->
     is_vacant L (PyStr s) VACANCY_PATTERNS = Ok false).
Proof.
  split; [reflexivity|]. split; [reflexivity|]. split; [reflexivity|].
  assert (forall s patterns, s <> "" -> all_space s = true ->
     strip (lower s) = "" /\
     is_vacant L (PyStr s) patterns
     = Ok (existsb (fun pattern => py_in pattern (strip (lower s))) patterns))
    as H.
  { intros s ps Hne Hsp. split; [apply strip_lower_all_space; exact Hsp|].
    rewrite is_vacant_eq. simpl. destruct s; [contradiction | reflexivity]. }
  split; [exact H|].
  intros s Hne Hsp. destruct (H s VACANCY_PATTERNS Hne Hsp) as [He Hv].
  rewrite Hv, He. reflexivity.
Qed.

(** ** The lease-snapshot extractor and the schemas *)

Section LeaseFacts.

Variable L : Lib.

(** A suite with area equal to zero has no positive area. *)
Lemma eqb_zero_not_pos (s : float) :
  PrimFloat.eqb s 0%float = true -> PrimFloat.ltb 0%float s = false.
Proof.
  rewrite FloatAxioms.eqb_spec, FloatAxioms.ltb_spec.
  change (Prim2SF 0%float) with (S754_zero false).
  unfold SFeqb, SFltb.
  destruct (Prim2SF s) as [sg | sg | | sg m e]; simpl;
    try destruct sg; simpl; congruence.
Qed.

Lemma rent_per_sqft_pos (a s : float) :
  PrimFloat.ltb 0%float s = true -> rent_per_sqft a s = PrimFloat.div a s.
Proof. unfold rent_per_sqft. intros ->. reflexivity. Qed.

Lemma rent_per_sqft_zero (a s : float) :
  PrimFloat.eqb s 0%float = true -> rent_per_sqft a s = 0%float.
Proof.
  unfold rent_per_sqft. intros H. rewrite (eqb_zero_not_pos s H). reflexivity.
Qed.

(** What [lease_record] puts in the derived field. *)
Lemma lease_record_psf cols i row m h t r :
  lease_record L cols i row m h t = Ok r ->
  rent_psf_yr r = rent_per_sqft (rent_annual r) (sqft r).
Proof.
  unfold lease_record. rewrite is_vacant_eq, is_own_use_eq. simpl.
  intros [= <-]. reflexivity.
Qed.

Lemma lease_record_suite cols i row m h t r :
  lease_record L cols i row m h t = Ok r ->
  suite_id r = suite_text L cols i row.
Proof.
  unfold lease_record. rewrite is_vacant_eq, is_own_use_eq. simpl.
  intros [= <-]. reflexivity.
Qed.

Lemma lease_record_total cols i row m h t :
  exists r, lease_record L cols i row m h t = Ok r.
Proof.
  unfold lease_record. rewrite is_vacant_eq, is_own_use_eq. simpl.
  eexists. reflexivity.
Qed.

Lemma lease_records_psf cols rs : forall i m h t out,
  lease_records L cols i rs m h t = Ok out ->
  forall r, r ∈ out -> rent_psf_yr r = rent_per_sqft (rent_annual r) (sqft r).
Proof.
  induction rs as [|row rs IH]; intros i m h t out; simpl.
  - intros [= <-] r Hr. inversion Hr.
  - destruct (nonempty (strip (suite_text L cols i row))).
    + destruct (lease_record L cols i row m h t) as [r0|e] eqn:E0; simpl;
        [|discriminate].
      destruct (lease_records L cols (S i) rs m h t) as [tl|e] eqn:E1; simpl;
        [|discriminate].
      intros [= <-] r Hr. apply elem_of_cons in Hr as [->|Hr].
      * exact (lease_record_psf _ _ _ _ _ _ _ E0).
      * exact (IH _ _ _ _ _ E1 r Hr).
    + apply IH.
Qed.

(** The extractor raises only on a frame with a doubled label. *)
Lemma lease_records_total cols rs : forall i m h t,
  exists out, lease_records L cols i rs m h t = Ok out.
Proof.
  induction rs as [|row rs IH]; intros i m h t; simpl.
  - eexists. reflexivity.
  - destruct (IH (S i) m h t) as [tl Htl].
    destruct (nonempty (strip (suite_text L cols i row))).
    + destruct (lease_record_total cols i row m h t) as [r Hr].
      rewrite Hr, Htl. simpl. eexists. reflexivity.
    + exists tl. exact Htl.
Qed.

Lemma ingest_lease_from_frame w m h t out :
  ingest_lease_rate_snapshot L w m h t = Ok out ->
  exists df, lease_from_frame L df m h t = Ok out.
Proof.
  unfold ingest_lease_rate_snapshot.
  destruct (pick_sheet _ _) as [name|]; [|discriminate].
  destruct (negb (nonempty name)); [discriminate|].
  destruct (get_sheet w name) as [ws|e]; simpl; [|discriminate].
  destruct (read_excel L 3 ws) as [df|]; [|discriminate].
  intros H. exists (clean_dataframe L df). exact H.
Qed.

(** ** Schema validation *)

Lemma column_valid_ge (x : float) :
  column_valid (Column DFloat [Check_ge 0%float] true) (VFloat x) = true ->
  null_or_nonneg x = true.
Proof.
  unfold column_valid, null_or_nonneg. simpl.
  destruct (is_nan x); [reflexivity|]. simpl.
  rewrite andb_true_r. auto.
Qed.

Lemma column_valid_ge_opt (o : option float) :
  column_valid (Column DFloat [Check_ge 0%float] true) (value_of_float o) = true ->
  opt_null_or_nonneg o = true.
Proof.
  destruct o as [x|]; [apply column_valid_ge | reflexivity].
Qed.

Lemma dash_row_valid (r : dash_row) :
  row_valid schema_dashboard_monthly (dash_fields r) = true ->
  opt_null_or_nonneg (rent_base (d_record r)) = true /\
  opt_null_or_nonneg (collected (d_record r)) = true /\
  opt_null_or_nonneg (leased_sqft (d_record r)) = true /\
  opt_null_or_nonneg (price_per_sf_yr (d_record r)) = true.
Proof.
  unfold row_valid, schema_dashboard_monthly, dash_fields.
  cbn [forallb dict_get fst snd String.eqb Ascii.eqb Bool.eqb].
  rewrite !andb_true_iff.
  intros (_ & _ & H1 & H2 & _ & H3 & H4 & _).
  repeat split; apply column_valid_ge_opt; assumption.
Qed.

Lemma lease_row_valid (r : lease_row) :
  row_valid schema_lease_rate (lease_fields r) = true ->
  null_or_nonneg (sqft r) = true /\
  null_or_nonneg (rent_monthly r) = true /\
  null_or_nonneg (rent_annual r) = true /\
  null_or_nonneg (rent_psf_yr r) = true.
Proof.
  unfold row_valid, schema_lease_rate, lease_fields.
  cbn [forallb dict_get fst snd String.eqb Ascii.eqb Bool.eqb].
  rewrite !andb_true_iff.
  intros (_ & _ & _ & _ & H1 & H2 & H3 & H4 & _).
  repeat split; apply column_valid_ge; assumption.
Qed.

End LeaseFacts.

(** C7. Every record the lease-snapshot extractor returns has
    [rent_psf_yr] equal to the float quotient [rent_annual / sqft] when
    [sqft > 0], and equal to [0.0] when [sqft == 0]. *)
Theorem rent_psf_yr_derived (L : Lib) (w : workbook)
    (as_of_month file_md5 now_iso : string) (df_lease : list lease_row) :
  ingest_lease_rate_snapshot L w as_of_month file_md5 now_iso = Ok df_lease ->
  forall r, r ∈ df_lease ->
    (PrimFloat.ltb 0%float (sqft r) = true ->
       rent_psf_yr r = PrimFloat.div (rent_annual r) (sqft r)) /\
    (PrimFloat.eqb (sqft r) 0%float = true -> rent_psf_yr r = 0%float).
Proof.
  intros H r Hr.
  destruct (ingest_lease_from_frame L _ _ _ _ _ H) as [df Hdf].
  unfold lease_from_frame in Hdf.
  destruct (forallb _ lease_labels); [|discriminate].
  rewrite (lease_records_psf L _ _ _ _ _ _ _ Hdf r Hr).
  split; [apply rent_per_sqft_pos | apply rent_per_sqft_zero].
Qed.

(** C3, at a lease sheet that lists suite "101A" twice: the run succeeds, the
    partition of the month holds two records with the same [suite_id], and
    the lease schema accepts them. *)
Lemma duplicate_suite_ids_persisted :
  let run := main example_lib duplicate_suite_file example_clock empty_bronze in
  snd run = Ok tt /\
  (map suite_id <$> raw_lease_rate_snapshot (fst run) !! "2025-01")
    = Some ["101A"; "101A"] /\
  (forall df, raw_lease_rate_snapshot (fst run) !! "2025-01" = Some df ->
     validate_partition schema_lease_rate (map lease_fields df) true = Ok true).
Proof.
  vm_compute. split; [reflexivity|]. split; [reflexivity|].
  intros df [= <-]. reflexivity.
Qed.

(** C4 as stated fails: a run persists a MonthlyDashboardFact whose
    [rent_base] is -5, which is neither null nor at least 0. *)
Lemma negative_rent_base_persisted :
  exists r : dash_row,
    (r ∈ default [] (raw_dashboard_monthly
           (fst (main example_lib negative_rent_file example_clock empty_bronze))
         !! "2025-01")) /\
    rent_base (d_record r) = Some (-5)%float /\
    opt_null_or_nonneg (rent_base (d_record r)) = false.
Proof.
  eexists. split; [|split].
  - vm_compute. apply list_elem_of_here.
  - reflexivity.
  - reflexivity.
Qed.

(** C4, amended. In a partition that its table's schema validates, every
    currency or area field of every MonthlyDashboardFact and
    SuiteSnapshotFact is null or at least 0; [uncollected] carries no check,
    and a record with a negative [uncollected] is valid. *)
Theorem validated_fields_nonnegative :
  (forall df : list dash_row,
     schema_validate schema_dashboard_monthly (map dash_fields df) = true ->
     forall r, r ∈ df ->
       opt_null_or_nonneg (rent_base (d_record r)) = true /\
       opt_null_or_nonneg (collected (d_record r)) = true /\
       opt_null_or_nonneg (leased_sqft (d_record r)) = true /\
       opt_null_or_nonneg (price_per_sf_yr (d_record r)) = true) /\
  (forall df : list lease_row,
     schema_validate schema_lease_rate (map lease_fields df) = true ->
     forall r, r ∈ df ->
       null_or_nonneg (sqft r) = true /\
       null_or_nonneg (rent_monthly r) = true /\
       null_or_nonneg (rent_annual r) = true /\
       null_or_nonneg (rent_psf_yr r) = true) /\
  (exists r : dash_row,
     uncollected (d_record r) = Some (-5)%float /\
     schema_validate schema_dashboard_monthly [dash_fields r] = true).
Proof.
  split; [|split].
  - intros df H r Hr. apply dash_row_valid.
    unfold schema_validate in H. rewrite forallb_forall in H.
    apply H. apply in_map. apply list_elem_of_In. exact Hr.
  - intros df H r Hr. apply lease_row_valid.
    unfold schema_validate in H. rewrite forallb_forall in H.
    apply H. apply in_map. apply list_elem_of_In. exact Hr.
  - exists {| d_record := {| month := "2025-01-01"; rent_base := Some 1000%float;
                             collected := Some 1005%float;
                             uncollected := Some (-5)%float;
                             leased_sqft := None; price_per_sf_yr := None |};
              d_as_of_month := "2025-01"; d_file_md5 := "00";
              d_ingested_at := "2025-03-01T09:00:00" |}.
    split; reflexivity.
Qed.

(** ** The ingestion run *)

Section RunFacts.

Variable L : Lib.

Lemma ingest_dashboard_md5 w m h t d :
  ingest_dashboard_monthly L w m h t = Ok d ->
  forall r, r ∈ d -> d_file_md5 r = h.
Proof.
  unfold ingest_dashboard_monthly.
  destruct (pick_sheet _ _) as [name|]; [|discriminate].
  destruct (negb (nonempty name)); [discriminate|].
  destruct (get_sheet w name) as [ws|e]; simpl; [|discriminate].
  destruct (_extract_dashboard_structured L ws m) as [df|e]; simpl; [|discriminate].
  intros [= <-] r Hr. apply list_elem_of_fmap in Hr as (x & -> & _). reflexivity.
Qed.

(** The guard answers true on a partition whose file is not empty and whose
    rows all carry the digest. *)
Lemma check_already_ingested_hit h m (part : gmap string (list dash_row)) d :
  part !! m = Some d -> d <> [] -> (forall r, r ∈ d -> d_file_md5 r = h) ->
  check_already_ingested h m part = true.
Proof.
  intros Hm Hne Hall. unfold check_already_ingested. rewrite Hm.
  apply bool_decide_eq_true. destruct d as [|r d]; [contradiction|].
  simpl. rewrite <- (Hall r (list_elem_of_here _ _)). apply list_elem_of_here.
Qed.

(** The guard answers false on a partition whose file has no row. *)
Lemma check_already_ingested_empty h m (part : gmap string (list dash_row)) :
  part !! m = Some [] -> check_already_ingested h m part = false.
Proof.
  intros Hm. unfold check_already_ingested. rewrite Hm.
  apply bool_decide_eq_false. simpl. apply not_elem_of_nil.
Qed.

(** A run leaves in the dashboard table either what it found or the frame
    of its dashboard step. *)
Lemma main_dashboard_partition f clk st :
  let h := content_md5 f in
  let m := detect_as_of_month L (wb f) (stem f)
             (pick_sheet (sheetnames (wb f)) DASHBOARD_SHEET_PATTERNS) (now clk) in
  snd (main L f clk st) = Ok tt ->
  check_already_ingested h m (raw_dashboard_monthly (fst (main L f clk st)))
  = true
  \/ raw_dashboard_monthly (fst (main L f clk st)) !! m = Some [].
Proof.
  intros h m. unfold main, main_with. cbv zeta. fold h m.
  destruct (check_already_ingested h m (raw_dashboard_monthly st)) eqn:Hc.
  { intros _. left. exact Hc. }
  destruct (ingest_dashboard_monthly L (wb f) m h (now_iso clk)) as [d|e] eqn:Hd;
    [|discriminate].
  assert (d <> [] ->
          check_already_ingested h m (<[m := d]> (raw_dashboard_monthly st)) = true)
    as Hhit.
  { intros Hne. apply (check_already_ingested_hit h m _ d);
      [apply lookup_insert_eq | exact Hne | exact (ingest_dashboard_md5 _ _ _ _ _ Hd)]. }
  destruct (ingest_expenses_monthly L (wb f) m h (now_iso clk)) as [de|];
    [destruct (0 <? length de)%nat|];
    (destruct (ingest_lease_rate_snapshot L (wb f) m h (now_iso clk));
       simpl; [intros _ | discriminate]);
    (destruct d as [|r d];
       [right; apply lookup_insert_eq | left; apply Hhit; discriminate]).
Qed.

(** X20. Ingesting a file again is skipped whenever the first run left a
    dashboard file with at least one row: the store is unchanged and one
    "skipped" line is logged. *)
Lemma reingest_skipped f clk clk' st :
  let h := content_md5 f in
  let pick := pick_sheet (sheetnames (wb f)) DASHBOARD_SHEET_PATTERNS in
  let m := detect_as_of_month L (wb f) (stem f) pick (now clk) in
  let st1 := fst (main L f clk st) in
  detect_as_of_month L (wb f) (stem f) pick (now clk') = m ->
  snd (main L f clk st) = Ok tt ->
  raw_dashboard_monthly st1 !! m <> Some [] ->
  main L f clk' st1
  = (log_ingestion h m 0 (now_iso clk') (now_iso clk') "skipped" st1, Ok tt).
Proof.
  intros h pick m st1 Hsame Hok Hne.
  destruct (main_dashboard_partition f clk st Hok) as [Hhit|Hempty];
    [|contradiction].
  unfold main at 1, main_with. cbv zeta. fold h pick. rewrite Hsame.
  change (check_already_ingested h m (raw_dashboard_monthly st1) = true) in Hhit.
  rewrite Hhit. reflexivity.
Qed.

End RunFacts.

(** C1, at a workbook whose dashboard month labels are "Enero" and
    "Febrero": the first run succeeds and stores a dashboard file with no
    row; the second run of the same file for the same month is not skipped,
    it extracts and writes again and logs "success". *)
Lemma reingest_not_skipped_on_empty_dashboard :
  let run1 := main example_lib spanish_months_file example_clock empty_bronze in
  let run2 := main example_lib spanish_months_file example_clock (fst run1) in
  snd run1 = Ok tt /\
  raw_dashboard_monthly (fst run1) !! "2025-01" = Some [] /\
  check_already_ingested (content_md5 spanish_months_file) "2025-01"
    (raw_dashboard_monthly (fst run1)) = false /\
  snd run2 = Ok tt /\
  map status (ingestion_log (fst run2)) = ["success"; "success"].
Proof. vm_compute. repeat split. Qed.

(** C2. In a run that is not a duplicate: when the expense step raises and
    the dashboard and lease steps return, the run returns, both frames are
    stored under the month, no expense partition is written and one "success"
    line is logged; when the dashboard step raises, nothing is stored, one
    "failed" line is logged and the exception reaches the caller; when the
    lease step raises, no lease partition is written, one "failed" line is
    logged and the exception reaches the caller. *)
Theorem extraction_failure_policy (L : Lib)
    (dashboard_step :
       workbook -> string -> string -> string -> result (list dash_row))
    (expenses_step :
       workbook -> string -> string -> string -> result (option (list exp_row)))
    (lease_step :
       workbook -> string -> string -> string -> result (list lease_row))
    (f : source_file) (clk : clock) (st : bronze) :
  let h := content_md5 f in
  let m := detect_as_of_month L (wb f) (stem f)
             (pick_sheet (sheetnames (wb f)) DASHBOARD_SHEET_PATTERNS) (now clk) in
  let t := now_iso clk in
  let run := main_with L dashboard_step expenses_step lease_step f clk st in
  let line := fun (n : nat) (outcome : string) =>
    {| log_file_md5 := h; log_as_of_month := m; rows_ingested := n;
       started_at := t; finished_at := t; status := outcome |} in
  check_already_ingested h m (raw_dashboard_monthly st) = false ->
  (forall e d l,
     expenses_step (wb f) m h t = Raise e ->
     dashboard_step (wb f) m h t = Ok d ->
     lease_step (wb f) m h t = Ok l ->
     snd run = Ok tt /\
     raw_dashboard_monthly (fst run) !! m = Some d /\
     raw_lease_rate_snapshot (fst run) !! m = Some l /\
     raw_expenses_monthly (fst run) = raw_expenses_monthly st /\
     ingestion_log (fst run)
     = ingestion_log st ++ [line (length d + length l) "success"]) /\
  (forall e,
     dashboard_step (wb f) m h t = Raise e ->
     snd run = Raise e /\
     raw_dashboard_monthly (fst run) = raw_dashboard_monthly st /\
     raw_expenses_monthly (fst run) = raw_expenses_monthly st /\
     raw_lease_rate_snapshot (fst run) = raw_lease_rate_snapshot st /\
     ingestion_log (fst run) = ingestion_log st ++ [line 0 "failed"]) /\
  (forall d e,
     dashboard_step (wb f) m h t = Ok d ->
     lease_step (wb f) m h t = Raise e ->
     snd run = Raise e /\
     raw_lease_rate_snapshot (fst run) = raw_lease_rate_snapshot st /\
     exists n, ingestion_log (fst run) = ingestion_log st ++ [line n "failed"]).
Proof.
  intros h m t run line Hc. subst run. unfold main_with. fold h m t.
  rewrite Hc. split; [|split].
  - intros e d l He Hd Hl. rewrite Hd, He, Hl. simpl.
    repeat split; try reflexivity.
    + apply lookup_insert_eq.
    + apply lookup_insert_eq.
  - intros e Hd. rewrite Hd. simpl. repeat split; reflexivity.
  - intros d e Hd Hl. rewrite Hd.
    destruct (expenses_step (wb f) m h t) as [[de|]|ee];
      [destruct (0 <? length de)%nat| |]; rewrite Hl; simpl;
      (split; [reflexivity|]; split; [reflexivity|]; eexists; reflexivity).
Qed.

(** ** The period detector *)

Section DetectorFacts.

Variable L : Lib.

Lemma is_digit_digit_char (d : nat) : is_digit (digit_char d) = true.
Proof.
  unfold is_digit, digit_char.
  assert (d mod 10 < 10) as Hlt by (apply Nat.mod_upper_bound; lia).
  rewrite nat_ascii_embedding by lia.
  apply andb_true_iff. split; apply Nat.leb_le; lia.
Qed.

Lemma strftime_Ym_shape (t : timestamp) : is_year_month (strftime_Ym t) = true.
Proof.
  unfold strftime_Ym, is_year_month. rewrite !is_digit_digit_char. reflexivity.
Qed.

Lemma match_ym_here_spec (s year mon : string) :
  match_ym_here s = Some (year, mon) <-> ym_match s "" year mon.
Proof.
  unfold ym_match, match_ym_here. split.
  - destruct s as [|c1 [|c2 [|c3 [|c4 [|c5 [|c6 [|c7 rest]]]]]]]; try discriminate.
    destruct (Ascii.eqb_spec c1 "2") as [->|]; [|discriminate].
    destruct (Ascii.eqb_spec c2 "0") as [->|]; [|discriminate]. simpl.
    destruct (is_digit c3) eqn:D3; [|discriminate].
    destruct (is_digit c4) eqn:D4; [|discriminate]. simpl.
    destruct (Ascii.eqb c5 "-" || Ascii.eqb c5 "_") eqn:D5; [|discriminate].
    destruct (is_digit c6) eqn:D6; [|discriminate].
    destruct (is_digit c7) eqn:D7; [|discriminate]. simpl.
    intros [= <- <-]. exists c3, c4, c5, c6, c7, rest.
    repeat split; auto.
    apply orb_true_iff in D5 as [D5|D5]; apply Ascii.eqb_eq in D5; auto.
  - intros (c3 & c4 & sep & m1 & m2 & rest & -> & D3 & D4 & D5 & D6 & D7 & -> & ->).
    rewrite app_nil_l. rewrite D3, D4, D6, D7.
    destruct D5 as [-> | ->]; reflexivity.
Qed.

Lemma match_ym_here_shape (s year mon : string) :
  match_ym_here s = Some (year, mon) ->
  is_year_month (year +:+ "-" +:+ mon) = true.
Proof.
  intros H. apply match_ym_here_spec in H.
  destruct H as (c3 & c4 & sep & m1 & m2 & rest & _ & D3 & D4 & _ & D6 & D7 & -> & ->).
  rewrite !app_cons, app_nil_l. simpl. rewrite D3, D4, D6, D7. reflexivity.
Qed.

Lemma re_search_ym_cons (c : ascii) (s : string) :
  re_search_ym (String c s)
  = match match_ym_here (String c s) with
    | Some g => Some g
    | None => re_search_ym s
    end.
Proof. reflexivity. Qed.

Lemma re_search_ym_nil : re_search_ym "" = None.
Proof. reflexivity. Qed.

(** [re.search] answers the leftmost match, and [None] only when the
    pattern matches nowhere. *)
Lemma re_search_ym_some (s year mon : string) :
  re_search_ym s = Some (year, mon) ->
  exists before,
    ym_match s before year mon /\
    forall before' rest y' m',
      s = before' +:+ rest -> String.length before' < String.length before ->
      ~ ym_match rest "" y' m'.
Proof.
  induction s as [|c s IH].
  - rewrite re_search_ym_nil. discriminate.
  - rewrite re_search_ym_cons.
    destruct (match_ym_here (String c s)) as [[y m]|] eqn:E.
    + intros H. inversion H; subst; clear H. exists "". split.
      * apply match_ym_here_spec. exact E.
      * intros b' r y' m' _ Hlen. simpl in Hlen. lia.
    + intros H. destruct (IH H) as (before & Hm & Hleft).
      exists (String c before). split.
      * destruct Hm as (c3 & c4 & sep & m1 & m2 & rest & -> & Hrest).
        exists c3, c4, sep, m1, m2, rest. rewrite app_cons. split; [reflexivity | exact Hrest].
      * intros b' r y' m' Hs Hlen Hmatch.
        destruct b' as [|c' b'].
        -- rewrite app_nil_l in Hs. subst r.
           apply match_ym_here_spec in Hmatch. congruence.
        -- rewrite app_cons in Hs. injection Hs as _ Hs.
           apply (Hleft b' r y' m' Hs); [simpl in Hlen; lia | exact Hmatch].
Qed.

Lemma re_search_ym_none (s : string) :
  re_search_ym s = None ->
  forall before rest y m, s = before +:+ rest -> ~ ym_match rest "" y m.
Proof.
  induction s as [|c s IH]; [|rewrite re_search_ym_cons].
  - intros _ before rest y m Hs Hm.
    destruct before; [|rewrite app_cons in Hs; discriminate].
    rewrite app_nil_l in Hs. subst rest.
    apply match_ym_here_spec in Hm. discriminate.
  - destruct (match_ym_here (String c s)) as [[y0 m0]|] eqn:E; [discriminate|].
    intros H before rest y m Hs Hm. destruct before as [|c' b'].
    + rewrite app_nil_l in Hs. subst rest.
      apply match_ym_here_spec in Hm. congruence.
    + rewrite app_cons in Hs. injection Hs as _ Hs.
      exact (IH H b' rest y m Hs Hm).
Qed.

Lemma re_search_ym_shape (s year mon : string) :
  re_search_ym s = Some (year, mon) ->
  is_year_month (year +:+ "-" +:+ mon) = true.
Proof.
  induction s as [|c s IH]; [|rewrite re_search_ym_cons].
  - discriminate.
  - destruct (match_ym_here (String c s)) as [[y m]|] eqn:E.
    + intros H. inversion H; subst; clear H. exact (match_ym_here_shape _ _ _ E).
    + exact IH.
Qed.

(** The loops of strategy 2 against the list of candidates. *)
Lemma first_parsed_app (a b : list pyval) :
  first_parsed L (a ++ b)
  = match first_parsed L a with
    | Some t => Some t
    | None => first_parsed L b
    end.
Proof.
  unfold first_parsed. rewrite omap_app.
  destruct (omap (to_datetime L) a); reflexivity.
Qed.

Lemma scan_offsets_spec (ws : grid) (r c : nat) :
  scan_offsets L ws r c [1; 2] = first_parsed L (right_neighbours ws r c).
Proof.
  unfold right_neighbours, first_parsed. simpl scan_offsets.
  rewrite !filter_cons, filter_nil.
  destruct (truthy (cell_value ws r (c + 1))) eqn:T1;
    destruct (truthy (cell_value ws r (c + 2))) eqn:T2;
    repeat (case_decide; try congruence); simpl;
    repeat (destruct (to_datetime L _)); reflexivity.
Qed.

Lemma scan_cells_cons (ws : grid) (r c : nat) (v : pyval) (cells : list pyval) :
  scan_cells L ws r c (v :: cells)
  = match (if is_period_cell v then scan_offsets L ws r c [1; 2] else None) with
    | Some parsed => Some parsed
    | None => scan_cells L ws r (S c) cells
    end.
Proof. reflexivity. Qed.

Lemma scan_rows_cons (ws : grid) (r : nat) (cells : list pyval)
    (rs : list (list pyval)) :
  scan_rows L ws r (cells :: rs)
  = match scan_cells L ws r 1 cells with
    | Some parsed => Some parsed
    | None => scan_rows L ws (S r) rs
    end.
Proof. reflexivity. Qed.

Lemma scan_cells_spec (ws : grid) (r : nat) (cells : list pyval) : forall c,
  scan_cells L ws r (S c) cells
  = first_parsed L
      (concat (imap (fun j v => if is_period_cell v
                                then right_neighbours ws r (S (c + j)) else [])
                    cells)).
Proof.
  induction cells as [|v cells IH]; intros c; [reflexivity|].
  rewrite scan_cells_cons, imap_cons. simpl concat. rewrite first_parsed_app.
  rewrite Nat.add_0_r.
  destruct (is_period_cell v).
  - rewrite scan_offsets_spec.
    destruct (first_parsed L (right_neighbours ws r (S c))); [reflexivity|].
    rewrite IH. f_equal. f_equal. apply imap_ext. intros j x _. simpl.
    rewrite Nat.add_succ_r. reflexivity.
  - change (first_parsed L []) with (@None timestamp).
    rewrite IH. f_equal. f_equal. apply imap_ext. intros j x _. simpl.
    rewrite Nat.add_succ_r. reflexivity.
Qed.

Lemma scan_rows_spec (ws : grid) (rs : list (list pyval)) : forall r,
  scan_rows L ws (S r) rs
  = first_parsed L
      (concat (imap (fun i cells => row_candidates ws (S (r + i)) cells) rs)).
Proof.
  induction rs as [|cells rs IH]; intros r; [reflexivity|].
  rewrite scan_rows_cons, imap_cons. simpl concat. rewrite first_parsed_app.
  rewrite Nat.add_0_r. rewrite (scan_cells_spec ws (S r) cells 0).
  unfold row_candidates at 1. simpl.
  destruct (first_parsed L _); [reflexivity|].
  rewrite IH. f_equal. f_equal. apply imap_ext. intros j x _. simpl.
  rewrite Nat.add_succ_r. reflexivity.
Qed.

Lemma scan_sheets_spec (w : workbook) (names : list string) :
  scan_sheets L w names
  = first_parsed L
      (concat (map (fun name => match get_sheet w name with
                                | Ok ws => sheet_candidates ws
                                | Raise _ => []
                                end) names)).
Proof.
  induction names as [|name names IH]; [reflexivity|].
  rewrite map_cons. simpl concat. rewrite first_parsed_app, <- IH.
  change (scan_sheets L w (name :: names))
    with (match get_sheet w name with
          | Raise _ => scan_sheets L w names
          | Ok ws =>
              match scan_rows L ws 1 (firstn 50 ws) with
              | Some parsed => Some parsed
              | None => scan_sheets L w names
              end
          end).
  destruct (get_sheet w name) as [ws|e]; [|reflexivity].
  rewrite (scan_rows_spec ws (firstn 50 ws) 0). reflexivity.
Qed.

Lemma detect_from_period_cell_spec (w : workbook) :
  detect_from_period_cell L w = first_parsed L (period_candidates w).
Proof. apply scan_sheets_spec. Qed.

End DetectorFacts.


(** ** The theorems at the example workbook *)

(** The policy of C2 at the example workbook, with an expense step that
    raises: the run returns and both frames are stored. *)
Lemma extraction_failure_policy_witness :
  let run :=
    main_with example_lib
      (ingest_dashboard_monthly example_lib)
      (fun _ _ _ _ => Raise (ValueError "expenses"))
      (ingest_lease_rate_snapshot example_lib)
      duplicate_suite_file example_clock empty_bronze in
  check_already_ingested (content_md5 duplicate_suite_file) "2025-01"
    (raw_dashboard_monthly empty_bronze) = false /\
  snd run = Ok tt /\
  raw_dashboard_monthly (fst run) !! "2025-01" = Some example_dashboard_rows /\
  raw_lease_rate_snapshot (fst run) !! "2025-01" = Some example_lease_rows /\
  map status (ingestion_log (fst run)) = ["success"].
Proof.
  split; [vm_compute; reflexivity|].
  destruct (extraction_failure_policy example_lib
              (ingest_dashboard_monthly example_lib)
              (fun _ _ _ _ => Raise (ValueError "expenses"))
              (ingest_lease_rate_snapshot example_lib)
              duplicate_suite_file example_clock empty_bronze
              ltac:(vm_compute; reflexivity)) as [Hexp _].
  destruct (Hexp (ValueError "expenses") example_dashboard_rows example_lease_rows
              eq_refl ltac:(vm_compute; reflexivity) ltac:(vm_compute; reflexivity))
    as (Hret & Hd & Hl & _ & Hlog).
  split; [exact Hret|]. split; [exact Hd|]. split; [exact Hl|].
  rewrite Hlog. reflexivity.
Defined.

(** C7 at the example workbook: both suites have a positive area and carry
    the quotient. *)
Lemma rent_psf_yr_derived_witness :
  ingest_lease_rate_snapshot example_lib (wb duplicate_suite_file) "2025-01"
    (content_md5 duplicate_suite_file) (now_iso example_clock)
  = Ok example_lease_rows /\
  Forall (fun r =>
            (PrimFloat.ltb 0%float (sqft r) = true ->
               rent_psf_yr r = PrimFloat.div (rent_annual r) (sqft r)) /\
            (PrimFloat.eqb (sqft r) 0%float = true -> rent_psf_yr r = 0%float))
         example_lease_rows.
Proof.
  assert (ingest_lease_rate_snapshot example_lib (wb duplicate_suite_file)
            "2025-01" (content_md5 duplicate_suite_file) (now_iso example_clock)
          = Ok example_lease_rows) as H by (vm_compute; reflexivity).
  split; [exact H|].
  apply List.Forall_forall. intros r Hr.
  apply (rent_psf_yr_derived example_lib _ _ _ _ _ H r).
  apply list_elem_of_In. exact Hr.
Defined.

(** C10 at a tenant text of two spaces. *)
Lemma is_vacant_blank_text_witness :
  is_vacant example_lib (PyStr "  ") VACANCY_PATTERNS = Ok false.
Proof.
  apply (proj2 (proj2 (proj2 (proj2 (is_vacant_blank_text example_lib)))));
    [discriminate | reflexivity].
Defined.

(** C4 (amended) at the stored dashboard frame of the example workbook. *)
Lemma validated_fields_nonnegative_witness :
  schema_validate schema_dashboard_monthly (map dash_fields example_dashboard_rows)
  = true /\
  Forall (fun r => opt_null_or_nonneg (rent_base (d_record r)) = true)
         example_dashboard_rows.
Proof.
  assert (schema_validate schema_dashboard_monthly
            (map dash_fields example_dashboard_rows) = true) as H
    by (vm_compute; reflexivity).
  split; [exact H|].
  apply List.Forall_forall. intros r Hr.
  apply (proj1 validated_fields_nonnegative example_dashboard_rows H r).
  apply list_elem_of_In. exact Hr.
Defined.

(** ** Worked examples *)

Example lower_mixed : lower "Dashboard 2025" = "dashboard 2025".
Proof. reflexivity. Qed.

Example strip_padded : strip "  Acme Corp	 " = "Acme Corp".
Proof. reflexivity. Qed.

Example pick_sheet_priority :
  pick_sheet ["Budget 2025"; "Dashboard"; "Lease Rate"] DASHBOARD_SHEET_PATTERNS
  = Some "Dashboard".
Proof. reflexivity. Qed.

Example pick_sheet_workbook_order :
  pick_sheet ["Rates"; "Lease Rate"] LEASE_RATE_SHEET_PATTERNS = Some "Lease Rate"
  /\ pick_sheet ["Rates"; "Summary"] LEASE_RATE_SHEET_PATTERNS = Some "Rates".
Proof. split; reflexivity. Qed.

Example pick_sheet_not_found :
  pick_sheet ["Summary"; "Notes"] EXPENSE_SHEET_PATTERNS = None.
Proof. reflexivity. Qed.

Example extract_building_scenarios :
  extract_building example_lib (PyStr "101A") = Some "A" /\
  extract_building example_lib (PyStr "205B") = Some "B" /\
  extract_building example_lib (PyStr "999") = None.
Proof. repeat split; reflexivity. Qed.

Example vacante_scenario :
  is_vacant example_lib (PyStr "VACANTE") VACANCY_PATTERNS = Ok true /\
  is_own_use example_lib (PyStr "VACANTE") (PyStr "205A") OWN_USE_PATTERNS
  = Ok false.
Proof. split; reflexivity. Qed.

(** The dashboard scenario of the contract: sheet "Dashboard 2025", labels
    January and February, base rents 1000 and 1100, collected 900 and 1000. *)
Example dashboard_scenario :
  let ws := blank_rows 28
            ++ [blanks 8 ++ [PyStr "January"; PyStr "February"]]
            ++ [blanks 8 ++ [PyFloat 1000; PyFloat 1100]]
            ++ [[]]
            ++ [blanks 8 ++ [PyFloat 900; PyFloat 1000]] in
  (fun df => map (fun r => (month r, rent_base r, collected r)) df)
    <$> match ingest_dashboard_monthly example_lib
                {| sheets := [("Dashboard 2025", ws)] |} "2025-01" "md5" "now"
        with
        | Ok df => Some (map d_record df)
        | Raise _ => None
        end
  = Some [ ("2025-01-01", Some 1000%float, Some 900%float);
           ("2025-02-01", Some 1100%float, Some 1000%float) ].
Proof. vm_compute. reflexivity. Qed.

(** The four tiers of the period detector, one workbook each. *)
Example detect_from_month_column :
  let ws := blank_rows 28 ++ [[PyStr "Month"; PyStr "Rent"]]
            ++ [[PyNone; PyFloat 10]]
            ++ [[PyDate {| ts_year := 2025; ts_month := 6 |}; PyFloat 20]] in
  detect_as_of_month example_lib {| sheets := [("Dashboard", ws)] |}
    "TCO_2024-12" (Some "Dashboard") {| ts_year := 2026; ts_month := 1 |}
  = "2025-06".
Proof. vm_compute. reflexivity. Qed.

Example detect_from_period_neighbour :
  let notes := [ [PyStr "Owner"; PyStr "TCO"];
                 [PyStr "Reporting Period:"; PyNone;
                  PyDate {| ts_year := 2024; ts_month := 11 |}] ] in
  detect_as_of_month example_lib {| sheets := [("Notes", notes)] |}
    "TCO_2024-12" None {| ts_year := 2026; ts_month := 1 |}
  = "2024-11".
Proof. vm_compute. reflexivity. Qed.

Example detect_from_filename :
  detect_as_of_month example_lib (wb duplicate_suite_file)
    (stem duplicate_suite_file) (Some "Dashboard") (now example_clock)
  = "2025-01".
Proof. vm_compute. reflexivity. Qed.

Example detect_from_clock :
  detect_as_of_month example_lib (wb duplicate_suite_file)
    "TCO Excel" (Some "Dashboard") (now example_clock)
  = "2025-03".
Proof. vm_compute. reflexivity. Qed.

(** The second run of a file whose first run stored dashboard rows. *)
Example second_run_skipped :
  let run1 := main example_lib duplicate_suite_file example_clock empty_bronze in
  let run2 := main example_lib duplicate_suite_file example_clock (fst run1) in
  snd run2 = Ok tt /\
  raw_dashboard_monthly (fst run2) = raw_dashboard_monthly (fst run1) /\
  raw_lease_rate_snapshot (fst run2) = raw_lease_rate_snapshot (fst run1) /\
  map status (ingestion_log (fst run2)) = ["success"; "skipped"].
Proof. vm_compute. repeat split. Qed.

(** ** Lowercasing and trimming *)

Section TextAlgebra.

Lemma nat_of_lower_ascii (c : ascii) :
  nat_of_ascii (lower_ascii c)
  = if is_upper c then nat_of_ascii c + 32 else nat_of_ascii c.
Proof.
  unfold lower_ascii, is_upper.
  destruct ((65 <=? nat_of_ascii c)%nat && (nat_of_ascii c <=? 90)%nat) eqn:E;
    [|reflexivity].
  apply andb_true_iff in E as [_ E2]. apply Nat.leb_le in E2.
  apply nat_ascii_embedding. lia.
Qed.

Lemma is_upper_range (c : ascii) :
  is_upper c = true <-> 65 <= nat_of_ascii c <= 90.
Proof.
  unfold is_upper. rewrite andb_true_iff, !Nat.leb_le. tauto.
Qed.

Lemma is_upper_lower_ascii (c : ascii) : is_upper (lower_ascii c) = false.
Proof.
  destruct (is_upper (lower_ascii c)) eqn:E; [|reflexivity].
  apply is_upper_range in E. rewrite nat_of_lower_ascii in E.
  destruct (is_upper c) eqn:U.
  - apply is_upper_range in U. lia.
  - apply is_upper_range in E. congruence.
Qed.

Lemma lower_ascii_not_upper (c : ascii) :
  is_upper c = false -> lower_ascii c = c.
Proof. unfold lower_ascii, is_upper. intros ->. reflexivity. Qed.

Lemma is_space_lower_ascii (c : ascii) : is_space (lower_ascii c) = is_space c.
Proof.
  unfold is_space. rewrite nat_of_lower_ascii.
  destruct (is_upper c) eqn:U; [|reflexivity].
  apply is_upper_range in U.
  repeat match goal with
  | |- context [(?a <=? ?b)%nat] => destruct (Nat.leb_spec a b)
  end; simpl; try reflexivity; lia.
Qed.

Lemma lower_idem (s : string) : lower (lower s) = lower s.
Proof.
  induction s as [|c s IH]; [reflexivity|]. simpl.
  rewrite IH, (lower_ascii_not_upper _ (is_upper_lower_ascii c)). reflexivity.
Qed.

Lemma has_upper_lower (s : string) : has_upper (lower s) = false.
Proof.
  induction s as [|c s IH]; [reflexivity|]. simpl.
  rewrite is_upper_lower_ascii, IH. reflexivity.
Qed.

Lemma has_upper_app (a b : string) :
  has_upper (a +:+ b) = has_upper a || has_upper b.
Proof.
  induction a as [|c a IH]; [reflexivity|].
  rewrite app_cons. simpl. rewrite IH, orb_assoc. reflexivity.
Qed.

Lemma lower_lstrip (s : string) : lower (lstrip s) = lstrip (lower s).
Proof.
  induction s as [|c s IH]; [reflexivity|]. simpl.
  rewrite is_space_lower_ascii. destruct (is_space c); [exact IH | reflexivity].
Qed.

Lemma lower_rstrip (s : string) : lower (rstrip s) = rstrip (lower s).
Proof.
  induction s as [|c s IH]; [reflexivity|]. simpl.
  rewrite <- IH, is_space_lower_ascii.
  destruct (rstrip s) as [|d r]; simpl; [destruct (is_space c)|]; reflexivity.
Qed.

Lemma lower_strip (s : string) : lower (strip s) = strip (lower s).
Proof. unfold strip. rewrite lower_rstrip, lower_lstrip. reflexivity. Qed.

Lemma rstrip_idem (s : string) : rstrip (rstrip s) = rstrip s.
Proof.
  induction s as [|c s IH]; [reflexivity|]. simpl.
  destruct (rstrip s) as [|d r] eqn:E.
  - destruct (is_space c) eqn:Hc; simpl; [reflexivity|]. rewrite Hc. reflexivity.
  - change (rstrip (String c (String d r)))
      with (match rstrip (String d r) with
            | EmptyString => if is_space c then EmptyString else String c EmptyString
            | r' => String c r'
            end).
    rewrite IH. reflexivity.
Qed.

(** A trimmed-left text is empty or starts with a character that is not
    white space, and trimming it on the right keeps that. *)
Lemma lstrip_fixed (s : string) : lstrip (lstrip s) = lstrip s.
Proof.
  induction s as [|c s IH]; [reflexivity|]. simpl.
  destruct (is_space c) eqn:Hc; [exact IH|]. simpl. rewrite Hc. reflexivity.
Qed.

Lemma lstrip_rstrip_fixed (s : string) :
  lstrip s = s -> lstrip (rstrip s) = rstrip s.
Proof.
  destruct s as [|c s]; [reflexivity|]. simpl.
  destruct (is_space c) eqn:Hc.
  - intros H. exfalso.
    assert (String.length (lstrip s) <= String.length s) as Hle.
    { clear. induction s as [|d s IH]; simpl; [lia|].
      destruct (is_space d); simpl; lia. }
    rewrite H in Hle. simpl in Hle. lia.
  - intros _. destruct (rstrip s); simpl; rewrite Hc; reflexivity.
Qed.

Lemma strip_idem (s : string) : strip (strip s) = strip s.
Proof.
  unfold strip.
  rewrite (lstrip_rstrip_fixed (lstrip s) (lstrip_fixed s)).
  apply rstrip_idem.
Qed.

(** What [strip] removes lies outside every occurrence of a trimmed text. *)
Lemma lstrip_suffix (s : string) : exists a, s = a +:+ lstrip s.
Proof.
  induction s as [|c s IH]; [exists ""; reflexivity|]. simpl.
  destruct (is_space c).
  - destruct IH as [a Ha]. exists (String c a). rewrite app_cons, <- Ha. reflexivity.
  - exists "". reflexivity.
Qed.

Lemma rstrip_prefix (s : string) : exists b, s = rstrip s +:+ b.
Proof.
  induction s as [|c s IH]; [exists ""; reflexivity|]. simpl.
  destruct IH as [b Hb]. destruct (rstrip s) as [|d r] eqn:E.
  - rewrite app_nil_l in Hb. destruct (is_space c).
    + exists (String c s). reflexivity.
    + exists b. rewrite app_cons, app_nil_l, <- Hb. reflexivity.
  - exists b. rewrite app_cons, <- Hb. reflexivity.
Qed.

Lemma is_substring_strip_inv (p s : string) :
  is_substring p (strip s) -> is_substring p s.
Proof.
  unfold strip. intros (a & b & H).
  destruct (lstrip_suffix s) as [a0 Ha0].
  destruct (rstrip_prefix (lstrip s)) as [b0 Hb0].
  exists (a0 +:+ a), (b +:+ b0).
  rewrite Ha0 at 1. rewrite Hb0 at 1. rewrite H.
  rewrite !app_assoc. reflexivity.
Qed.

Lemma trimmed_spec (p : string) :
  trimmed p = true <-> p <> "" /\ lstrip p = p /\ rstrip p = p.
Proof.
  unfold trimmed. rewrite !andb_true_iff, !String.eqb_eq.
  destruct p; simpl; split; intros [[H1 H2] H3] || intros [H1 [H2 H3]];
    try discriminate; try contradiction; auto.
Qed.

Lemma lstrip_app_trimmed (a p b : string) :
  p <> "" -> lstrip p = p ->
  exists a', lstrip (a +:+ p +:+ b) = a' +:+ p +:+ b.
Proof.
  intros Hne Hp. induction a as [|c a IH].
  - exists "". rewrite !app_nil_l.
    destruct p as [|d p]; [contradiction|].
    rewrite app_cons. simpl in *. destruct (is_space d) eqn:Hd; [|reflexivity].
    exfalso.
    assert (String.length (lstrip p) <= String.length p) as Hle.
    { clear. induction p as [|e p IH]; simpl; [lia|].
      destruct (is_space e); simpl; lia. }
    rewrite Hp in Hle. simpl in Hle. lia.
  - rewrite app_cons. simpl. destruct (is_space c); [exact IH|].
    exists (String c a). rewrite app_cons. reflexivity.
Qed.

Lemma rstrip_app_trimmed (p b : string) :
  p <> "" -> rstrip p = p -> rstrip (p +:+ b) = p +:+ rstrip b.
Proof.
  induction p as [|c p IH]; [contradiction|]. intros _ Hp.
  rewrite !app_cons. simpl in *.
  destruct p as [|d p].
  - rewrite !app_nil_l. simpl in Hp.
    destruct (is_space c); [discriminate|].
    destruct (rstrip b); reflexivity.
  - destruct (rstrip (String d p)) as [|e r] eqn:E.
    + destruct (is_space c); discriminate.
    + injection Hp as He Hr. subst e r.
      rewrite IH; [|discriminate|reflexivity].
      rewrite app_cons. reflexivity.
Qed.

Lemma is_substring_strip (p s : string) :
  trimmed p = true -> is_substring p s -> is_substring p (strip s).
Proof.
  intros Ht (a & b & ->). apply trimmed_spec in Ht as (Hne & Hl & Hr).
  unfold strip.
  destruct (lstrip_app_trimmed a p b Hne Hl) as [a' Ha'].
  rewrite Ha'. exists a', (rstrip b).
  rewrite rstrip_app_keep.
  - rewrite rstrip_app_trimmed by assumption. reflexivity.
  - rewrite rstrip_app_trimmed by assumption.
    destruct p; [contradiction|]. rewrite app_cons. discriminate.
Qed.

Lemma py_in_strip (p s : string) :
  trimmed p = true -> py_in p (strip s) = py_in p s.
Proof.
  intros Ht. destruct (py_in p s) eqn:E.
  - apply py_in_spec. apply is_substring_strip; [exact Ht|].
    apply py_in_spec. exact E.
  - apply py_in_false. intros H. apply is_substring_strip_inv in H.
    apply py_in_false in E. contradiction.
Qed.

Lemma py_in_upper_lower (p s : string) :
  has_upper p = true -> py_in p (lower s) = false.
Proof.
  intros Hp. apply py_in_false. intros (a & b & H).
  assert (has_upper (lower s) = true) as Hup.
  { rewrite H, !has_upper_app, Hp, orb_true_r. reflexivity. }
  rewrite has_upper_lower in Hup. discriminate.
Qed.

End TextAlgebra.

(** ** More on the classifiers and the column normalizer *)

Section ClassifierPhrases.

Variable L : Lib.

Lemma existsb_ext_in {A : Type} (f g : A -> bool) (l : list A) :
  (forall x, In x l -> f x = g x) -> existsb f l = existsb g l.
Proof.
  induction l as [|x l IH]; intros H; [reflexivity|]. simpl.
  rewrite (H x (or_introl eq_refl)), IH; [reflexivity|].
  intros y Hy. apply H. right. exact Hy.
Qed.

Lemma existsb_filter_upper (f : string -> bool) (patterns : list string) :
  (forall p, has_upper p = true -> f p = false) ->
  existsb f patterns
  = existsb f (filter (fun p => has_upper p = false) patterns).
Proof.
  intros Hf. induction patterns as [|p ps IH]; [reflexivity|].
  rewrite filter_cons. destruct (has_upper p) eqn:Hp.
  - rewrite decide_False by discriminate. simpl. rewrite (Hf p Hp). exact IH.
  - rewrite decide_True by reflexivity. simpl. rewrite IH. reflexivity.
Qed.

Lemma existsb_true_iff (f : string -> bool) (l : list string) :
  existsb f l = true <-> exists p, p ∈ l /\ f p = true.
Proof.
  rewrite existsb_exists. split; intros (p & Hp & Hf); exists p; split; auto;
    apply list_elem_of_In; exact Hp.
Qed.

End ClassifierPhrases.



(** X2. The classifiers lowercase the text but not the phrases: a phrase that
    holds an uppercase ASCII letter never matches, so the answer is the same
    as without such phrases. *)
Theorem uppercase_phrases_never_match (L : Lib) (patterns : list string) :
  let lowercase_only := filter (fun p => has_upper p = false) patterns in
  (forall tenant_name,
     is_vacant L tenant_name patterns = is_vacant L tenant_name lowercase_only) /\
  (forall tenant_name suite,
     is_own_use L tenant_name suite patterns
     = is_own_use L tenant_name suite lowercase_only) /\
  (forall p s, has_upper p = true -> is_vacant L (PyStr s) [p] = Ok (negb (nonempty s))).
Proof.
  intros lowercase_only. subst lowercase_only.
  assert (forall s p, has_upper p = true -> py_in p (strip (lower s)) = false)
    as Hnever.
  { intros s p Hp. rewrite <- lower_strip. apply py_in_upper_lower. exact Hp. }
  split; [|split].
  - intros t. rewrite !is_vacant_eq. f_equal. f_equal.
    apply existsb_filter_upper. intros p Hp. apply Hnever. exact Hp.
  - intros t s. rewrite !is_own_use_eq. f_equal.
    apply existsb_filter_upper. intros p Hp. apply Hnever. exact Hp.
  - intros p s Hp. rewrite is_vacant_eq. simpl.
    rewrite (Hnever s p Hp). simpl. rewrite orb_false_r. reflexivity.
Qed.

Section Normalizer.

Lemma py_dict_lookup_value {V : Type} (items : list (string * V)) :
  forall (d0 : gmap string V) k v,
    fold_left (fun d kv => <[fst kv := snd kv]> d) items d0 !! k = Some v ->
    d0 !! k = Some v \/ In v (map snd items).
Proof.
  induction items as [|[k0 v0] items IH]; intros d0 k v; simpl.
  - auto.
  - intros H. destruct (IH _ _ _ H) as [H0|H0]; [|auto].
    destruct (decide (k0 = k)) as [->|Hne].
    + rewrite lookup_insert_eq in H0. injection H0 as <-. auto.
    + rewrite lookup_insert_ne in H0 by exact Hne. auto.
Qed.

Lemma strip_lower_fixed (label : string) :
  strip (lower (strip (lower label))) = strip (lower label).
Proof. rewrite <- lower_strip, strip_idem, lower_strip, lower_idem. reflexivity. Qed.

Lemma alias_values_canonical :
  forall v, In v (map snd COLUMN_ALIASES_items) ->
    normalize_label COLUMN_ALIASES v = v.
Proof.
  intros v Hv.
  assert (forallb (fun v => String.eqb (normalize_label COLUMN_ALIASES v) v)
            (map snd COLUMN_ALIASES_items) = true) as Hall
    by (vm_compute; reflexivity).
  rewrite forallb_forall in Hall. apply String.eqb_eq. apply Hall. exact Hv.
Qed.

Lemma normalize_label_idem (label : string) :
  normalize_label COLUMN_ALIASES (normalize_label COLUMN_ALIASES label)
  = normalize_label COLUMN_ALIASES label.
Proof.
  assert (normalize_label COLUMN_ALIASES label
          = default (strip (lower label))
              (COLUMN_ALIASES !! strip (lower label))) as Hn by reflexivity.
  rewrite Hn. clear Hn.
  destruct (COLUMN_ALIASES !! strip (lower label)) as [v|] eqn:E; simpl.
  - apply alias_values_canonical.
    destruct (py_dict_lookup_value COLUMN_ALIASES_items ∅ _ _ E) as [H|H];
      [rewrite lookup_empty in H; discriminate | exact H].
  - unfold normalize_label. rewrite strip_lower_fixed, E. reflexivity.
Qed.

End Normalizer.

(** X3. [normalize_columns] with the configured alias table is idempotent:
    every canonical name is kept by a second pass, and a label without an
    alias stays as lowercased and trimmed.  The rows are not touched.  The
    key "$/sf/yr", written twice in the table, resolves to its last value. *)
Theorem normalize_columns_idempotent (df : frame) :
  normalize_columns (normalize_columns df COLUMN_ALIASES) COLUMN_ALIASES
  = normalize_columns df COLUMN_ALIASES /\
  rows (normalize_columns df COLUMN_ALIASES) = rows df /\
  length (columns (normalize_columns df COLUMN_ALIASES)) = length (columns df) /\
  (forall label, COLUMN_ALIASES !! strip (lower label) = None ->
     normalize_label COLUMN_ALIASES label = strip (lower label)) /\
  normalize_label COLUMN_ALIASES " $/SF/Yr " = "rent_psf_yr".
Proof.
  split; [|split; [|split; [|split]]].
  - unfold normalize_columns. simpl. f_equal.
    rewrite map_map. apply map_ext. intros label. apply normalize_label_idem.
  - reflexivity.
  - unfold normalize_columns. simpl. apply length_map.
  - intros label H. unfold normalize_label. rewrite H. reflexivity.
  - vm_compute. reflexivity.
Qed.

(** ** More on the lease-snapshot extractor *)

From Stdlib Require Import DecimalNat.

Section LeaseMore.

Variable L : Lib.

Lemma search_AB_spec (s : string) :
  match search_AB s with
  | None =>
      forall a c b, s = a +:+ String c b ->
        upper_ascii c <> "A"%char /\ upper_ascii c <> "B"%char
  | Some x =>
      (x = "A" \/ x = "B") /\
      exists a c b,
        s = a +:+ String c b /\ x = String (upper_ascii c) EmptyString /\
        forall a1 c1 b1, a = a1 +:+ String c1 b1 ->
          upper_ascii c1 <> "A"%char /\ upper_ascii c1 <> "B"%char
  end.
Proof.
  induction s as [|c s IH]; simpl.
  - intros a c b H. destruct a; [rewrite app_nil_l in H|rewrite app_cons in H];
      discriminate.
  - destruct (Ascii.eqb_spec (upper_ascii c) "A") as [HA|HA]; simpl.
    { split; [left; rewrite HA; reflexivity|].
      exists "", c, s. split; [reflexivity|]. split; [reflexivity|].
      intros a1 c1 b1 H. destruct a1; [rewrite app_nil_l in H|rewrite app_cons in H];
        discriminate. }
    destruct (Ascii.eqb_spec (upper_ascii c) "B") as [HB|HB]; simpl.
    { split; [right; rewrite HB; reflexivity|].
      exists "", c, s. split; [reflexivity|]. split; [reflexivity|].
      intros a1 c1 b1 H. destruct a1; [rewrite app_nil_l in H|rewrite app_cons in H];
        discriminate. }
    destruct (search_AB s) as [x|].
    + destruct IH as (Hx & a & c0 & b & -> & -> & Hbefore).
      split; [exact Hx|]. exists (String c a), c0, b.
      split; [rewrite app_cons; reflexivity|]. split; [reflexivity|].
      intros a1 c1 b1 H. destruct a1 as [|d a1].
      * rewrite app_nil_l in H. injection H as <- _. auto.
      * rewrite app_cons in H. injection H as _ H. exact (Hbefore _ _ _ H).
    + intros a c0 b H. destruct a as [|d a].
      * rewrite app_nil_l in H. injection H as <- _. auto.
      * rewrite app_cons in H. injection H as _ H. exact (IH _ _ _ H).
Qed.

Lemma search_AB_range (s : string) :
  search_AB s = None \/ search_AB s = Some "A" \/ search_AB s = Some "B".
Proof.
  pose proof (search_AB_spec s) as H. destruct (search_AB s) as [x|]; [|auto].
  destruct H as [[-> | ->] _]; auto.
Qed.

(** The fields [lease_record] fills. *)
Lemma lease_record_fields cols i row m h t r :
  lease_record L cols i row m h t = Ok r ->
  suite_id r = suite_text L cols i row /\
  building r = search_AB (suite_text L cols i row) /\
  l_as_of_month r = m /\ l_file_md5 r = h /\ l_ingested_at r = t.
Proof.
  unfold lease_record. rewrite is_vacant_eq, is_own_use_eq. simpl.
  intros [= <-]. repeat split; reflexivity.
Qed.

Lemma lease_records_invariants cols rs : forall i m h t out,
  lease_records L cols i rs m h t = Ok out ->
  length out <= length rs /\
  forall r, r ∈ out ->
    nonempty (strip (suite_id r)) = true /\
    building r = search_AB (suite_id r) /\
    l_as_of_month r = m /\ l_file_md5 r = h /\ l_ingested_at r = t.
Proof.
  induction rs as [|row rs IH]; intros i m h t out; simpl.
  - intros [= <-]. split; [simpl; lia|]. intros r Hr. inversion Hr.
  - destruct (nonempty (strip (suite_text L cols i row))) eqn:Hs.
    + destruct (lease_record L cols i row m h t) as [r0|e] eqn:E0; simpl;
        [|discriminate].
      destruct (lease_records L cols (S i) rs m h t) as [tl|e] eqn:E1; simpl;
        [|discriminate].
      intros [= <-]. destruct (IH _ _ _ _ _ E1) as [Hlen Hall].
      split; [simpl; lia|]. intros r Hr.
      apply elem_of_cons in Hr as [->|Hr]; [|exact (Hall r Hr)].
      destruct (lease_record_fields _ _ _ _ _ _ _ E0) as (H1 & H2 & H3 & H4 & H5).
      rewrite H1. repeat split; assumption.
    + intros H. destruct (IH _ _ _ _ _ H) as [Hlen Hall].
      split; [lia | exact Hall].
Qed.

(** [str(n)] is injective. *)
Lemma str_nat_inj (n k : nat) : str_nat n = str_nat k -> n = k.
Proof.
  unfold str_nat. intros H.
  assert (Some (Nat.to_uint n) = Some (Nat.to_uint k)) as Hu.
  { rewrite <- !NilEmpty.usu, H. reflexivity. }
  injection Hu as Hu.
  rewrite <- (Unsigned.of_to n), <- (Unsigned.of_to k), Hu. reflexivity.
Qed.

Lemma strip_nonspace_head (c : ascii) (s : string) :
  is_space c = false -> nonempty (strip (String c s)) = true.
Proof.
  intros Hc. unfold strip. simpl. rewrite Hc. simpl.
  destruct (rstrip s); [rewrite Hc|]; reflexivity.
Qed.

(** Without a suite column every row is kept, with its placeholder. *)
Lemma lease_records_placeholders cols rs : forall i m h t out,
  col_index "suite_id" cols = None ->
  lease_records L cols i rs m h t = Ok out ->
  map suite_id out
  = map (fun k => "SUITE_" +:+ str_nat (k + 1)) (seq i (length rs)).
Proof.
  induction rs as [|row rs IH]; intros i m h t out Hcol; simpl.
  - intros [= <-]. reflexivity.
  - assert (suite_text L cols i row = "SUITE_" +:+ str_nat (i + 1)) as Hs.
    { unfold suite_text, row_get. rewrite Hcol. reflexivity. }
    rewrite Hs.
    assert (nonempty (strip ("SUITE_" +:+ str_nat (i + 1))) = true) as Hne
      by exact (strip_nonspace_head "S" ("UITE_" +:+ str_nat (i + 1)) eq_refl).
    rewrite Hne.
    destruct (lease_record L cols i row m h t) as [r0|e] eqn:E0; simpl;
      [|discriminate].
    destruct (lease_records L cols (S i) rs m h t) as [tl|e] eqn:E1; simpl;
      [|discriminate].
    intros [= <-]. simpl. f_equal.
    + rewrite (proj1 (lease_record_fields _ _ _ _ _ _ _ E0)). exact Hs.
    + exact (IH _ _ _ _ _ Hcol E1).
Qed.

Lemma placeholders_NoDup (i n : nat) :
  NoDup (map (fun k => "SUITE_" +:+ str_nat (k + 1)) (seq i n)).
Proof.
  apply NoDup_fmap_2.
  - intros a b H. apply String.app_inj in H. apply str_nat_inj in H. lia.
  - apply NoDup_seq.
Qed.

End LeaseMore.


(** X5. Every record the lease extractor returns from a cleaned frame has a
    suite id that is not blank after trimming, a building that is [None],
    "A" or "B" and is read off that suite id, and the three audit values of
    the run; no more records are returned than the frame has rows. *)
Theorem lease_records_well_formed (L : Lib) (df : frame)
    (as_of_month file_md5 now_iso : string) (out : list lease_row) :
  lease_from_frame L df as_of_month file_md5 now_iso = Ok out ->
  length out <= length (rows df) /\
  forall r, r ∈ out ->
    strip (suite_id r) <> "" /\
    (building r = None \/ building r = Some "A" \/ building r = Some "B") /\
    building r = extract_building L (PyStr (suite_id r)) /\
    l_as_of_month r = as_of_month /\ l_file_md5 r = file_md5 /\
    l_ingested_at r = now_iso.
Proof.
  unfold lease_from_frame.
  destruct (forallb _ lease_labels); [|discriminate].
  intros H. destruct (lease_records_invariants L _ _ _ _ _ _ _ H) as [Hlen Hall].
  split; [exact Hlen|]. intros r Hr.
  destruct (Hall r Hr) as (H1 & H2 & H3 & H4 & H5).
  split; [intros Hs; rewrite Hs in H1; discriminate|].
  split; [rewrite H2; apply search_AB_range|].
  split; [exact H2|]. auto.
Qed.

(** X6. When the cleaned frame has no "Suite" or "suite_id" column, no row
    is dropped: row [i] (from 0) gets the suite id "SUITE_" followed by
    [i + 1], and these ids are pairwise distinct. *)
Theorem generated_suite_ids_distinct (L : Lib) (df : frame)
    (as_of_month file_md5 now_iso : string) (out : list lease_row) :
  col_index "suite_id" (rename_columns (columns df)) = None ->
  lease_from_frame L df as_of_month file_md5 now_iso = Ok out ->
  map suite_id out
  = map (fun i => "SUITE_" +:+ str_nat (i + 1)) (seq 0 (length (rows df))) /\
  length out = length (rows df) /\
  NoDup (map suite_id out).
Proof.
  intros Hcol. unfold lease_from_frame.
  destruct (forallb _ lease_labels); [|discriminate].
  intros H.
  pose proof (lease_records_placeholders L _ _ _ _ _ _ _ Hcol H) as Hmap.
  split; [exact Hmap|]. split.
  - rewrite <- (length_map suite_id out), Hmap, length_map, length_seq. reflexivity.
  - rewrite Hmap. apply placeholders_NoDup.
Qed.

(** ** More on the dashboard and expenses extractors and on the schemas *)

Section ExtractMore.

Variable L : Lib.

Lemma pick_sheet_loop_member (names patterns : list string) (name : string) :
  pick_sheet_loop (map lower names) names patterns = Some name -> name ∈ names.
Proof.
  induction patterns as [|p ps IH]; simpl; [discriminate|].
  destruct (pick_sheet_scan (lower p) (map lower names) names) as [n|] eqn:E.
  - intros [= <-]. destruct (pick_sheet_scan_some _ _ _ E) as (j & Hj & _).
    apply list_elem_of_lookup. exists j. exact Hj.
  - exact IH.
Qed.

Lemma pick_sheet_member (names patterns : list string) (name : string) :
  pick_sheet names patterns = Some name -> name ∈ names.
Proof. apply pick_sheet_loop_member. Qed.

Lemma get_sheet_member (w : workbook) (name : string) :
  name ∈ sheetnames w -> exists ws, get_sheet w name = Ok ws.
Proof.
  unfold sheetnames, get_sheet. destruct w as [shs]. simpl.
  induction shs as [|[n g] shs IH]; simpl.
  - intros H. inversion H.
  - intros H. destruct (String.eqb_spec n name) as [->|Hne].
    + eexists. reflexivity.
    + apply elem_of_cons in H as [H|H]; [congruence|]. exact (IH H).
Qed.

Lemma dashboard_data_length (ws : grid) (months : list string) : forall k,
  length (dashboard_data L ws k months) = length months.
Proof.
  induction months as [|x months IH]; intros k; simpl; [reflexivity|].
  rewrite IH. reflexivity.
Qed.

Lemma resolve_months_spec (year : string) (data : list dashboard_record) :
  length (resolve_months year data) <= length data /\
  forall r, r ∈ resolve_months year data ->
    In (month r) (map snd (month_map year)).
Proof.
  induction data as [|r0 data [IHlen IHall]]; cbn [resolve_months length].
  - split; [lia|]. intros r Hr. inversion Hr.
  - destruct (dict_get (month_map year) (lower (month r0))) as [date|] eqn:E.
    + split; [cbn [length]; lia|]. intros r Hr.
      apply elem_of_cons in Hr as [->|Hr]; [|exact (IHall r Hr)].
      cbn [month]. clear -E. revert E. generalize (month_map year).
      induction l as [|[k v] l IH]; simpl; [discriminate|].
      destruct (String.eqb k (lower (month r0))); [intros [= <-]; auto|].
      intros H. right. exact (IH H).
    + split; [lia | exact IHall].
Qed.

Lemma expense_row_data_spec ws year row_num txt category months m h t :
  forall k r,
    r ∈ expense_row_data L ws year row_num txt category k months m h t ->
    expense_category r = category /\ item r = txt /\
    e_as_of_month r = m /\ e_file_md5 r = h /\ e_ingested_at r = t /\
    In (e_month r) (map snd (month_map year)).
Proof.
  induction months as [|name months IH]; intros k r; cbn [expense_row_data].
  - intros Hr. inversion Hr.
  - assert (forall date, dict_get (month_map year) (lower name) = Some date ->
              In date (map snd (month_map year))) as Hdate.
    { generalize (month_map year).
      induction l as [|[k0 v] l IHl]; simpl; [discriminate|].
      destruct (String.eqb k0 (lower name)); [intros d [= <-]; auto|].
      intros d Hd. right. exact (IHl d Hd). }
    destruct (cell_value ws row_num (9 + k)) as [|x|s|d] eqn:Hc;
      try exact (IH (S k) r);
      (destruct (float_of_cell L _) as [y|]; [|exact (IH (S k) r)];
       destruct (dict_get (month_map year) (lower name)) as [date|] eqn:Hd;
         [|exact (IH (S k) r)];
       destruct (nonempty date); [|exact (IH (S k) r)];
       intros Hr; apply elem_of_cons in Hr as [->|Hr];
         [cbn [expense_category item e_as_of_month e_file_md5 e_ingested_at
               e_month]; repeat split; auto | exact (IH (S k) r Hr)]).
Qed.

Lemma expense_data_spec ws year items months m h t :
  forall r,
    r ∈ expense_data L ws year items months m h t ->
    In (expense_category r) (map (fun it => snd (snd it)) items) /\
    e_as_of_month r = m /\ e_file_md5 r = h /\ e_ingested_at r = t /\
    In (e_month r) (map snd (month_map year)).
Proof.
  induction items as [|[row_num [name category]] items IH]; intros r; simpl.
  - intros Hr. inversion Hr.
  - intros Hr. apply elem_of_app in Hr as [Hr|Hr].
    + destruct (expense_row_data_spec _ _ _ _ _ _ _ _ _ _ _ Hr)
        as (H1 & _ & H3 & H4 & H5 & H6).
      repeat split; auto.
    + destruct (IH r Hr) as (H1 & H2). split; [right; exact H1 | exact H2].
Qed.

(** The column checks on values of the stored types. *)
Lemma column_valid_text (s : string) :
  column_valid (Column DString [] false) (VStr s) = true.
Proof. reflexivity. Qed.

Lemma column_valid_bool (b : bool) :
  column_valid (Column DBool [] false) (VBool b) = true.
Proof. reflexivity. Qed.

Lemma column_valid_date (s : string) :
  column_valid (Column DDateTime [] false) (VDate s) = true.
Proof. reflexivity. Qed.

Lemma column_valid_number (x : float) :
  column_valid (Column DFloat [Check_ge 0%float] true) (VFloat x)
  = null_or_nonneg x.
Proof.
  unfold column_valid, null_or_nonneg. simpl.
  destruct (is_nan x); simpl; [reflexivity|]. apply andb_true_r.
Qed.

Lemma column_valid_number_opt (o : option float) :
  column_valid (Column DFloat [Check_ge 0%float] true) (value_of_float o)
  = opt_null_or_nonneg o.
Proof. destruct o; [apply column_valid_number | reflexivity]. Qed.

Lemma column_valid_free (o : option float) :
  column_valid (Column DFloat [] true) (value_of_float o) = true.
Proof.
  destruct o as [x|]; [|reflexivity].
  unfold column_valid. simpl. destruct (is_nan x); reflexivity.
Qed.

Lemma column_valid_tenant (v : pyval) :
  column_valid (Column DString [] false) (value_of_pyval v) = negb (pd_isna v).
Proof.
  destruct v as [|x|s|d]; reflexivity.
Qed.

Lemma dash_row_valid_eq (r : dash_row) :
  row_valid schema_dashboard_monthly (dash_fields r) = dash_numbers_ok r.
Proof.
  unfold row_valid, schema_dashboard_monthly, dash_fields, dash_numbers_ok.
  cbn [forallb dict_get fst snd String.eqb Ascii.eqb Bool.eqb].
  rewrite !column_valid_text, column_valid_date, !column_valid_number_opt,
    column_valid_free.
  cbn [andb]. rewrite andb_true_r, !andb_assoc. reflexivity.
Qed.

Lemma exp_row_valid_eq (r : exp_row) :
  row_valid schema_expenses_monthly (exp_fields r)
  = null_or_nonneg (actual r) && category_ok r.
Proof.
  unfold row_valid, schema_expenses_monthly, exp_fields, category_ok.
  cbn [forallb dict_get fst snd String.eqb Ascii.eqb Bool.eqb].
  rewrite !column_valid_text, column_valid_date, column_valid_number.
  cbn [andb]. rewrite !andb_true_r.
  unfold column_valid. simpl. rewrite andb_true_r. reflexivity.
Qed.

Lemma lease_row_valid_eq (r : lease_row) :
  row_valid schema_lease_rate (lease_fields r)
  = building_ok r && negb (pd_isna (tenant r)) && lease_numbers_ok r.
Proof.
  unfold row_valid, schema_lease_rate, lease_fields, building_ok, lease_numbers_ok.
  cbn [forallb dict_get fst snd String.eqb Ascii.eqb Bool.eqb].
  rewrite !column_valid_text, !column_valid_bool, !column_valid_number,
    column_valid_tenant.
  cbn [andb]. rewrite !andb_true_r, !andb_assoc.
  destruct (building r) as [b|]; [|reflexivity].
  unfold column_valid. simpl. rewrite andb_true_r. reflexivity.
Qed.

Lemma forallb_map_eq {A B : Type} (f : B -> bool) (g : A -> B) (h : A -> bool)
    (l : list A) :
  (forall x, In x l -> f (g x) = h x) ->
  forallb f (map g l) = forallb h l.
Proof.
  induction l as [|x l IH]; intros H; [reflexivity|]. simpl.
  rewrite (H x (or_introl eq_refl)), IH; [reflexivity|].
  intros y Hy. apply H. right. exact Hy.
Qed.

End ExtractMore.

Lemma ingest_expenses_monthly_rows_aux (L : Lib) (w : workbook)
    (as_of_month file_md5 now_iso : string) (df : list exp_row) :
  ingest_expenses_monthly L w as_of_month file_md5 now_iso = Some df ->
  forall r, r ∈ df -> expense_category r ∈ ["fixed"; "variable"; "other"].
Proof.
  unfold ingest_expenses_monthly.
  destruct (pick_sheet _ _) as [name|]; [|discriminate].
  destruct (negb (nonempty name)); [discriminate|].
  destruct (get_sheet w name) as [ws|e]; [|discriminate].
  destruct (int_of_str L (split_head "-" as_of_month)) as [year|]; [|discriminate].
  destruct (expense_data L ws year expense_items (expense_months L ws)
              as_of_month file_md5 now_iso) as [|r0 data] eqn:E; [discriminate|].
  intros [= <-] r Hr. rewrite <- E in Hr.
  destruct (expense_data_spec L _ _ _ _ _ _ _ _ Hr) as (H1 & _).
  assert (forallb (fun c => bool_decide (c ∈ ["fixed"; "variable"; "other"]))
            (map (fun it => snd (snd it)) expense_items) = true) as Hall
    by (vm_compute; reflexivity).
  rewrite forallb_forall in Hall. specialize (Hall _ H1).
  apply bool_decide_eq_true in Hall. exact Hall.
Qed.

Lemma ingest_expenses_monthly_nonempty (L : Lib) (w : workbook)
    (as_of_month file_md5 now_iso : string) (df : list exp_row) :
  ingest_expenses_monthly L w as_of_month file_md5 now_iso = Some df ->
  (0 <? length df)%nat = true.
Proof.
  unfold ingest_expenses_monthly.
  destruct (pick_sheet _ _) as [name|]; [|discriminate].
  destruct (negb (nonempty name)); [discriminate|].
  destruct (get_sheet w name) as [ws|e]; [|discriminate].
  destruct (int_of_str L (split_head "-" as_of_month)) as [year|]; [|discriminate].
  destruct (expense_data L ws year expense_items (expense_months L ws)
              as_of_month file_md5 now_iso) as [|r0 data]; [discriminate|].
  intros [= <-]. reflexivity.
Qed.

Lemma validate_dash_eq (df : list dash_row) :
  schema_validate schema_dashboard_monthly (map dash_fields df)
  = forallb dash_numbers_ok df.
Proof.
  unfold schema_validate. apply forallb_map_eq. intros r _.
  apply dash_row_valid_eq.
Qed.

Lemma validate_exp_extracted (L : Lib) (w : workbook)
    (as_of_month file_md5 now_iso : string) (df : list exp_row) :
  ingest_expenses_monthly L w as_of_month file_md5 now_iso = Some df ->
  schema_validate schema_expenses_monthly (map exp_fields df)
  = forallb (fun r => null_or_nonneg (actual r)) df.
Proof.
  intros H. unfold schema_validate. apply forallb_map_eq. intros r Hr.
  rewrite exp_row_valid_eq.
  pose proof (ingest_expenses_monthly_rows_aux L w as_of_month file_md5 now_iso
                df H r (proj2 (list_elem_of_In _ _) Hr)) as Hc.
  unfold category_ok. rewrite bool_decide_eq_true_2 by exact Hc.
  apply andb_true_r.
Qed.

Lemma validate_lease_extracted (L : Lib) (w : workbook)
    (as_of_month file_md5 now_iso : string) (df : list lease_row) :
  ingest_lease_rate_snapshot L w as_of_month file_md5 now_iso = Ok df ->
  schema_validate schema_lease_rate (map lease_fields df)
  = forallb (fun r => negb (pd_isna (tenant r)) && lease_numbers_ok r) df.
Proof.
  intros H. unfold schema_validate. apply forallb_map_eq. intros r Hr.
  rewrite lease_row_valid_eq.
  destruct (ingest_lease_from_frame L _ _ _ _ _ H) as [fr Hfr].
  unfold lease_from_frame in Hfr.
  destruct (forallb _ lease_labels); [|discriminate].
  destruct (lease_records_invariants L _ _ _ _ _ _ _ Hfr) as [_ Hall].
  destruct (Hall r (proj2 (list_elem_of_In _ _) Hr)) as (_ & Hb & _).
  unfold building_ok. rewrite Hb.
  destruct (search_AB_range (suite_id r)) as [-> | [-> | ->]]; reflexivity.
Qed.


(** X8. The expenses extractor never returns an empty frame (it answers
    [None] instead), so the length test of [main] on its result never fails;
    every record it returns has a category among fixed, variable and other,
    a month that is the first day of a month of the year of [as_of_month],
    and the audit values of the run. *)
Theorem ingest_expenses_monthly_rows (L : Lib) (w : workbook)
    (as_of_month file_md5 now_iso : string) (df : list exp_row) :
  ingest_expenses_monthly L w as_of_month file_md5 now_iso = Some df ->
  df <> [] /\ (0 <? length df)%nat = true /\
  exists year,
    int_of_str L (split_head "-" as_of_month) = Some year /\
    forall r, r ∈ df ->
      expense_category r ∈ ["fixed"; "variable"; "other"] /\
      e_as_of_month r = as_of_month /\ e_file_md5 r = file_md5 /\
      e_ingested_at r = now_iso /\
      In (e_month r) (map snd (month_map year)).
Proof.
  unfold ingest_expenses_monthly.
  destruct (pick_sheet _ _) as [name|]; [|discriminate].
  destruct (negb (nonempty name)); [discriminate|].
  destruct (get_sheet w name) as [ws|e]; [|discriminate].
  destruct (int_of_str L (split_head "-" as_of_month)) as [year|]; [|discriminate].
  destruct (expense_data L ws year expense_items (expense_months L ws)
              as_of_month file_md5 now_iso) as [|r0 data] eqn:E; [discriminate|].
  intros [= <-]. split; [discriminate|]. split; [reflexivity|].
  exists year. split; [reflexivity|]. intros r Hr. rewrite <- E in Hr.
  destruct (expense_data_spec L _ _ _ _ _ _ _ _ Hr) as (H1 & H2 & H3 & H4 & H5).
  split; [|auto].
  apply list_elem_of_In.
  assert (forallb (fun c => bool_decide (c ∈ ["fixed"; "variable"; "other"]))
            (map (fun it => snd (snd it)) expense_items) = true) as Hall
    by (vm_compute; reflexivity).
  rewrite forallb_forall in Hall. specialize (Hall _ H1).
  apply bool_decide_eq_true in Hall. apply list_elem_of_In. exact Hall.
Qed.

(** X9. What schema validation decides on stored frames.  A dashboard frame
    is valid exactly when its four checked numbers are null or at least 0 in
    every row; an expenses frame when every amount is null or at least 0 and
    every category is in the enumeration; a lease frame when in every row
    the building is null, "A" or "B", the tenant is not null and the four
    numbers are null or at least 0.  No other column of these frames can
    fail. *)
Theorem schema_validate_decides :
  (forall df : list dash_row,
     schema_validate schema_dashboard_monthly (map dash_fields df)
     = forallb dash_numbers_ok df) /\
  (forall df : list exp_row,
     schema_validate schema_expenses_monthly (map exp_fields df)
     = forallb (fun r => null_or_nonneg (actual r) && category_ok r) df) /\
  (forall df : list lease_row,
     schema_validate schema_lease_rate (map lease_fields df)
     = forallb (fun r => building_ok r && negb (pd_isna (tenant r))
                         && lease_numbers_ok r) df).
Proof.
  unfold schema_validate. split; [|split]; intros df; apply forallb_map_eq;
    intros r _.
  - apply dash_row_valid_eq.
  - apply exp_row_valid_eq.
  - apply lease_row_valid_eq.
Qed.

(** X10. On the frames the extractors return, validation can fail only on
    numbers (and, for the lease frame, on a null tenant): the category of an
    extracted expense and the building of an extracted suite always pass. *)
Theorem extracted_frames_validation (L : Lib) (w : workbook)
    (as_of_month file_md5 now_iso : string) :
  (forall df,
     ingest_expenses_monthly L w as_of_month file_md5 now_iso = Some df ->
     schema_validate schema_expenses_monthly (map exp_fields df)
     = forallb (fun r => null_or_nonneg (actual r)) df) /\
  (forall df,
     ingest_lease_rate_snapshot L w as_of_month file_md5 now_iso = Ok df ->
     schema_validate schema_lease_rate (map lease_fields df)
     = forallb (fun r => negb (pd_isna (tenant r)) && lease_numbers_ok r) df).
Proof.
  split; intros df H.
  - exact (validate_exp_extracted L w _ _ _ df H).
  - exact (validate_lease_extracted L w _ _ _ df H).
Qed.

(** ** More on the ingestion run *)

Section RunMore.

Variable L : Lib.

Lemma ingest_lease_md5 w m h t l :
  ingest_lease_rate_snapshot L w m h t = Ok l ->
  forall r, r ∈ l -> l_file_md5 r = h.
Proof.
  intros H r Hr. destruct (ingest_lease_from_frame L _ _ _ _ _ H) as [df Hdf].
  unfold lease_from_frame in Hdf.
  destruct (forallb _ lease_labels); [|discriminate].
  destruct (lease_records_invariants L _ _ _ _ _ _ _ Hdf) as [_ Hall].
  destruct (Hall r Hr) as (_ & _ & _ & H4 & _). exact H4.
Qed.

Lemma main_dashboard_after_run f clk st :
  let h := content_md5 f in
  let m := detect_as_of_month L (wb f) (stem f)
             (pick_sheet (sheetnames (wb f)) DASHBOARD_SHEET_PATTERNS) (now clk) in
  check_already_ingested h m (raw_dashboard_monthly st) = false ->
  snd (main L f clk st) = Ok tt ->
  exists d,
    raw_dashboard_monthly (fst (main L f clk st)) !! m = Some d /\
    forall r, r ∈ d -> d_file_md5 r = h.
Proof.
  intros h m Hc. unfold main, main_with. cbv zeta. fold h m. rewrite Hc.
  destruct (ingest_dashboard_monthly L (wb f) m h (now_iso clk)) as [d|e] eqn:Hd;
    [|discriminate].
  destruct (ingest_expenses_monthly L (wb f) m h (now_iso clk)) as [de|];
    [destruct (0 <? length de)%nat|];
    (destruct (ingest_lease_rate_snapshot L (wb f) m h (now_iso clk)) as [l|e];
       simpl; [intros _|discriminate];
     exists d; split;
       [apply lookup_insert_eq | exact (ingest_dashboard_md5 L _ _ _ _ _ Hd)]).
Qed.

End RunMore.


(** X12. A run changes no partition of another month, in any table; a run
    that is skipped, or that fails in the dashboard step, changes no
    partition at all. *)
Theorem main_touches_one_month (L : Lib)
    (dashboard_step :
       workbook -> string -> string -> string -> result (list dash_row))
    (expenses_step :
       workbook -> string -> string -> string -> result (option (list exp_row)))
    (lease_step :
       workbook -> string -> string -> string -> result (list lease_row))
    (f : source_file) (clk : clock) (st : bronze) :
  let h := content_md5 f in
  let m := detect_as_of_month L (wb f) (stem f)
             (pick_sheet (sheetnames (wb f)) DASHBOARD_SHEET_PATTERNS) (now clk) in
  let run := main_with L dashboard_step expenses_step lease_step f clk st in
  (forall m', m' <> m ->
     raw_dashboard_monthly (fst run) !! m' = raw_dashboard_monthly st !! m' /\
     raw_expenses_monthly (fst run) !! m' = raw_expenses_monthly st !! m' /\
     raw_lease_rate_snapshot (fst run) !! m' = raw_lease_rate_snapshot st !! m') /\
  ((check_already_ingested h m (raw_dashboard_monthly st) = true \/
    exists e, dashboard_step (wb f) m h (now_iso clk) = Raise e) ->
   raw_dashboard_monthly (fst run) = raw_dashboard_monthly st /\
   raw_expenses_monthly (fst run) = raw_expenses_monthly st /\
   raw_lease_rate_snapshot (fst run) = raw_lease_rate_snapshot st).
Proof.
  intros h m run. subst run. unfold main_with. cbv zeta. fold h m.
  split.
  - intros m' Hne.
    destruct (check_already_ingested h m (raw_dashboard_monthly st));
      [repeat split; reflexivity|].
    destruct (dashboard_step (wb f) m h (now_iso clk)) as [d|e];
      [|repeat split; reflexivity].
    destruct (expenses_step (wb f) m h (now_iso clk)) as [[de|]|ee];
      [destruct (0 <? length de)%nat| |];
      destruct (lease_step (wb f) m h (now_iso clk)) as [l|e]; simpl;
      repeat split; rewrite ?lookup_insert_ne by congruence; reflexivity.
  - intros [Hc | [e He]].
    + rewrite Hc. repeat split; reflexivity.
    + destruct (check_already_ingested h m (raw_dashboard_monthly st));
        [repeat split; reflexivity|].
      rewrite He. repeat split; reflexivity.
Qed.

(** X13. A run that is not skipped and returns replaces the dashboard and the
    lease partition of its month by the frames it extracted: afterwards
    every row of them carries the digest of this file, so rows an edited or
    earlier file had stored there are gone.  The expenses partition is
    replaced only when this file yields expenses; otherwise it is left as it
    was. *)
Theorem main_replaces_month_partitions (L : Lib) (f : source_file)
    (clk : clock) (st : bronze) :
  let h := content_md5 f in
  let m := detect_as_of_month L (wb f) (stem f)
             (pick_sheet (sheetnames (wb f)) DASHBOARD_SHEET_PATTERNS) (now clk) in
  let run := main L f clk st in
  check_already_ingested h m (raw_dashboard_monthly st) = false ->
  snd run = Ok tt ->
  exists d l,
    ingest_dashboard_monthly L (wb f) m h (now_iso clk) = Ok d /\
    ingest_lease_rate_snapshot L (wb f) m h (now_iso clk) = Ok l /\
    raw_dashboard_monthly (fst run) !! m = Some d /\
    raw_lease_rate_snapshot (fst run) !! m = Some l /\
    (forall r, r ∈ d -> d_file_md5 r = h) /\
    (forall r, r ∈ l -> l_file_md5 r = h) /\
    match ingest_expenses_monthly L (wb f) m h (now_iso clk) with
    | Some e => raw_expenses_monthly (fst run) !! m = Some e
    | None => raw_expenses_monthly (fst run) = raw_expenses_monthly st
    end.
Proof.
  intros h m run Hc. subst run. unfold main, main_with. cbv zeta. fold h m.
  rewrite Hc.
  destruct (ingest_dashboard_monthly L (wb f) m h (now_iso clk)) as [d|e] eqn:Hd;
    [|discriminate].
  pose proof (ingest_expenses_monthly_nonempty L (wb f) m h (now_iso clk)) as Hexp.
  destruct (ingest_expenses_monthly L (wb f) m h (now_iso clk)) as [de|];
    [rewrite (Hexp de eq_refl)|];
    (destruct (ingest_lease_rate_snapshot L (wb f) m h (now_iso clk)) as [l|e] eqn:Hl;
       simpl; [intros _|discriminate];
     exists d, l; repeat split;
       try apply lookup_insert_eq;
       [exact (ingest_dashboard_md5 L _ _ _ _ _ Hd)
       |exact (ingest_lease_md5 L _ _ _ _ _ Hl)]).
Qed.

(** X14. The guard reads the dashboard table only.  When a run stores at
    least one dashboard row and then fails in the lease step, running the
    same file again for the same month is skipped: the lease partition the
    first run did not write is not written by the second either. *)
Theorem failed_lease_run_is_skipped_next (L : Lib) (f : source_file)
    (clk clk' : clock) (st : bronze) (d : list dash_row) (e : exn) :
  let h := content_md5 f in
  let pick := pick_sheet (sheetnames (wb f)) DASHBOARD_SHEET_PATTERNS in
  let m := detect_as_of_month L (wb f) (stem f) pick (now clk) in
  let run1 := main L f clk st in
  let run2 := main L f clk' (fst run1) in
  check_already_ingested h m (raw_dashboard_monthly st) = false ->
  ingest_dashboard_monthly L (wb f) m h (now_iso clk) = Ok d ->
  d <> [] ->
  ingest_lease_rate_snapshot L (wb f) m h (now_iso clk) = Raise e ->
  detect_as_of_month L (wb f) (stem f) pick (now clk') = m ->
  snd run1 = Raise e /\
  raw_lease_rate_snapshot (fst run1) = raw_lease_rate_snapshot st /\
  snd run2 = Ok tt /\
  raw_lease_rate_snapshot (fst run2) = raw_lease_rate_snapshot st /\
  map status (ingestion_log (fst run2))
  = map status (ingestion_log st) ++ ["failed"; "skipped"].
Proof.
  intros h pick m run1 run2 Hc Hd Hne Hl Hsame.
  assert (snd run1 = Raise e /\
          raw_lease_rate_snapshot (fst run1) = raw_lease_rate_snapshot st /\
          raw_dashboard_monthly (fst run1) !! m = Some d /\
          map status (ingestion_log (fst run1))
          = map status (ingestion_log st) ++ ["failed"]) as (H1 & H2 & H3 & H4).
  { subst run1. unfold main, main_with. cbv zeta. fold h pick m.
    rewrite Hc, Hd.
    destruct (ingest_expenses_monthly L (wb f) m h (now_iso clk)) as [de|];
      [destruct (0 <? length de)%nat|]; rewrite Hl; simpl;
      rewrite map_app; repeat split; try reflexivity; apply lookup_insert_eq. }
  assert (check_already_ingested h m (raw_dashboard_monthly (fst run1)) = true)
    as Hhit.
  { apply (check_already_ingested_hit h m _ d H3 Hne).
    exact (ingest_dashboard_md5 L _ _ _ _ _ Hd). }
  split; [exact H1|]. split; [exact H2|].
  subst run2. unfold main at 1 2 3, main_with. cbv zeta. fold h pick.
  rewrite Hsame, Hhit. simpl. split; [reflexivity|]. split; [exact H2|].
  rewrite map_app, H4, <- List.app_assoc. reflexivity.
Qed.


(** X21. An edited file replaces the original in the guard's view.  After a
    file with digest [h2] has been ingested for a month, a file with another
    digest [h1] is no longer recognised for that month, whatever was stored
    before: ingesting the original again extracts and writes again. *)
Theorem edited_file_forgets_original (L : Lib) (f2 : source_file)
    (clk : clock) (st : bronze) (h1 : string) :
  let h2 := content_md5 f2 in
  let m := detect_as_of_month L (wb f2) (stem f2)
             (pick_sheet (sheetnames (wb f2)) DASHBOARD_SHEET_PATTERNS) (now clk) in
  h1 <> h2 ->
  check_already_ingested h2 m (raw_dashboard_monthly st) = false ->
  snd (main L f2 clk st) = Ok tt ->
  check_already_ingested h1 m (raw_dashboard_monthly (fst (main L f2 clk st)))
  = false.
Proof.
  intros h2 m Hne Hc Hok.
  destruct (main_dashboard_after_run L f2 clk st Hc Hok) as (d & Hd & Hall).
  fold m in Hd. unfold check_already_ingested. rewrite Hd.
  apply bool_decide_eq_false. intros Hin.
  apply list_elem_of_fmap in Hin as (r & -> & Hr).
  apply Hne. exact (Hall r Hr).
Qed.
(** ** Validation of tables and of the store *)

Section QualityMore.

Lemma validate_partitions_soft tn schema ps : forall all_valid q,
  validate_partitions tn schema ps false all_valid q
  = (q ++ map (fun p => (tn, fst p)) (invalid_partitions schema ps),
     Ok (all_valid && forallb (fun p => schema_validate schema (snd p)) ps)).
Proof.
  unfold invalid_partitions.
  induction ps as [|[name df] ps IH]; intros av q; simpl.
  - rewrite List.app_nil_r, andb_true_r. reflexivity.
  - unfold validate_partition_report, validate_partition. rewrite filter_cons.
    simpl. destruct (schema_validate schema df) eqn:E.
    + rewrite decide_False by discriminate. rewrite IH. reflexivity.
    + rewrite decide_True by reflexivity. rewrite IH. simpl.
      rewrite <- List.app_assoc, andb_false_r. reflexivity.
Qed.

Lemma validate_partitions_hard tn schema ps : forall all_valid q,
  validate_partitions tn schema ps true all_valid q
  = match invalid_partitions schema ps with
    | [] => (q, Ok all_valid)
    | p :: _ => (q ++ [(tn, fst p)], Raise PandasError)
    end.
Proof.
  unfold invalid_partitions.
  induction ps as [|[name df] ps IH]; intros av q; simpl; [reflexivity|].
  unfold validate_partition_report, validate_partition. rewrite filter_cons.
  simpl. destruct (schema_validate schema df) eqn:E.
  - rewrite decide_False by discriminate. apply IH.
  - rewrite decide_True by reflexivity. reflexivity.
Qed.

Lemma invalid_partitions_nil schema ps :
  invalid_partitions schema ps = [] <->
  forall p, p ∈ ps -> schema_validate schema (snd p) = true.
Proof.
  unfold invalid_partitions. induction ps as [|p0 ps IH].
  - split; [intros _ p Hp; inversion Hp | reflexivity].
  - rewrite filter_cons. destruct (schema_validate schema (snd p0)) eqn:E.
    + rewrite decide_False by discriminate. rewrite IH. split.
      * intros H p Hp. apply elem_of_cons in Hp as [->|Hp]; [exact E | exact (H p Hp)].
      * intros H p Hp. apply H. apply list_elem_of_further. exact Hp.
    + rewrite decide_True by reflexivity. split; [discriminate|].
      intros H. specialize (H p0 (list_elem_of_here _ _)). congruence.
Qed.

Lemma partitions_of_valid {R : Type} (fields : R -> list (string * value))
    (schema : list (string * column)) (tbl : gmap string (list R)) :
  invalid_partitions schema (partitions_of fields tbl) = [] <->
  forall m df, tbl !! m = Some df ->
    schema_validate schema (map fields df) = true.
Proof.
  rewrite invalid_partitions_nil. unfold partitions_of. split.
  - intros H m df Hm.
    apply (H ("as_of_month=" +:+ m, map fields df)).
    apply list_elem_of_fmap. exists (m, df). split; [reflexivity|].
    rewrite merge_sort_Permutation. apply elem_of_map_to_list. exact Hm.
  - intros H p Hp. apply list_elem_of_fmap in Hp as ([m df] & -> & Hin).
    rewrite merge_sort_Permutation in Hin. apply elem_of_map_to_list in Hin.
    simpl. exact (H m df Hin).
Qed.

Lemma quality_tables_spec
    (validations : list (string * (list (string * column)
                         * list (string * list (list (string * value)))))) :
  forall all_passed q,
    quality_tables validations all_passed q
    = (q ++ concat (map (fun v => first_report (fst v)
                                   (invalid_partitions (fst (snd v)) (snd (snd v))))
                        validations),
       all_passed
       && forallb (fun v => match invalid_partitions (fst (snd v)) (snd (snd v)) with
                            | [] => true
                            | _ :: _ => false
                            end) validations).
Proof.
  induction validations as [|[tn [schema ps]] rest IH]; intros ap q.
  - simpl. rewrite List.app_nil_r, andb_true_r. reflexivity.
  - cbn [quality_tables]. unfold validate_bronze_table.
    rewrite validate_partitions_hard. cbn [map concat forallb fst snd].
    destruct (invalid_partitions schema ps) as [|p bad].
    + rewrite IH. cbn [first_report app]. reflexivity.
    + rewrite IH. cbn [first_report]. rewrite <- List.app_assoc, andb_false_r.
      reflexivity.
Qed.

Lemma quality_main_zero_iff (st : bronze) :
  snd (quality_main st) = 0 <->
  (forall m df, raw_dashboard_monthly st !! m = Some df ->
     schema_validate schema_dashboard_monthly (map dash_fields df) = true) /\
  (forall m df, raw_expenses_monthly st !! m = Some df ->
     schema_validate schema_expenses_monthly (map exp_fields df) = true) /\
  (forall m df, raw_lease_rate_snapshot st !! m = Some df ->
     schema_validate schema_lease_rate (map lease_fields df) = true).
Proof.
  rewrite <- !partitions_of_valid.
  unfold quality_main. rewrite quality_tables_spec.
  cbn [map concat forallb fst snd app andb].
  destruct (invalid_partitions schema_dashboard_monthly _) as [|p1 b1];
    destruct (invalid_partitions schema_expenses_monthly _) as [|p2 b2];
    destruct (invalid_partitions schema_lease_rate _) as [|p3 b3];
    cbn [fst snd first_report app andb];
    split; try (intros H; discriminate H);
    try (intros (H1 & H2 & H3); discriminate); auto.
Qed.

End QualityMore.

(** X15. [validate_bronze_table] in its two modes.  In soft mode it never
    raises, writes one report for every partition its schema rejects, in
    order, and answers whether all partitions passed.  In hard-fail mode it
    answers true or raises, never false, and writes a report for the first
    rejected partition only: the partitions after it are not validated. *)
Theorem validate_bronze_table_modes (table_name : string)
    (schema : list (string * column))
    (partitions : list (string * list (list (string * value))))
    (q : quarantine) :
  let bad := invalid_partitions schema partitions in
  validate_bronze_table table_name schema partitions false q
  = (q ++ map (fun p => (table_name, fst p)) bad,
     Ok (forallb (fun p => schema_validate schema (snd p)) partitions)) /\
  validate_bronze_table table_name schema partitions true q
  = match bad with
    | [] => (q, Ok true)
    | p :: _ => (q ++ [(table_name, fst p)], Raise PandasError)
    end /\
  (forallb (fun p => schema_validate schema (snd p)) partitions = true <-> bad = []).
Proof.
  intros bad. subst bad. unfold validate_bronze_table.
  rewrite validate_partitions_soft, validate_partitions_hard.
  split; [reflexivity|]. split; [reflexivity|].
  rewrite invalid_partitions_nil, forallb_forall. split.
  - intros H p Hp. apply H. apply list_elem_of_In. exact Hp.
  - intros H p Hp. apply H. apply list_elem_of_In. exact Hp.
Qed.

(** X16. [main] of [etl/quality.py] validates all three tables even when one
    fails, exits with status 0 exactly when every stored partition of every
    table passes its schema, and with status 1 otherwise; as it validates in
    hard-fail mode, it writes at most one report per table, for the first
    rejected partition in the order of the folder names. *)
Theorem quality_main_status (st : bronze) :
  let bad_dashboard :=
    invalid_partitions schema_dashboard_monthly
      (partitions_of dash_fields (raw_dashboard_monthly st)) in
  let bad_expenses :=
    invalid_partitions schema_expenses_monthly
      (partitions_of exp_fields (raw_expenses_monthly st)) in
  let bad_lease :=
    invalid_partitions schema_lease_rate
      (partitions_of lease_fields (raw_lease_rate_snapshot st)) in
  fst (quality_main st)
  = first_report "dashboard" bad_dashboard
    ++ first_report "expenses" bad_expenses
    ++ first_report "lease_rate" bad_lease /\
  (snd (quality_main st) = 0 \/ snd (quality_main st) = 1) /\
  (snd (quality_main st) = 0 <->
   (forall m df, raw_dashboard_monthly st !! m = Some df ->
      schema_validate schema_dashboard_monthly (map dash_fields df) = true) /\
   (forall m df, raw_expenses_monthly st !! m = Some df ->
      schema_validate schema_expenses_monthly (map exp_fields df) = true) /\
   (forall m df, raw_lease_rate_snapshot st !! m = Some df ->
      schema_validate schema_lease_rate (map lease_fields df) = true)).
Proof.
  cbv zeta. rewrite <- !partitions_of_valid.
  unfold quality_main. rewrite quality_tables_spec.
  cbn [map concat forallb fst snd app andb].
  destruct (invalid_partitions schema_dashboard_monthly _) as [|p1 b1];
    destruct (invalid_partitions schema_expenses_monthly _) as [|p2 b2];
    destruct (invalid_partitions schema_lease_rate _) as [|p3 b3];
    cbn [fst snd first_report app andb];
    (split; [reflexivity|]); (split; [auto|]);
    split; try (intros H; discriminate H);
    try (intros (H1 & H2 & H3); discriminate); auto.
Qed.


(** X17. Ingestion followed by validation, on an empty store.  When the run
    returns, [main] of [etl/quality.py] exits with status 0 exactly when the
    four checked numbers of every extracted dashboard record are null or at
    least 0, every extracted suite has a tenant that is not null and numbers
    that are null or at least 0, and every extracted expense amount is null
    or at least 0. *)
Theorem ingest_then_validate (L : Lib) (f : source_file) (clk : clock) :
  let h := content_md5 f in
  let m := detect_as_of_month L (wb f) (stem f)
             (pick_sheet (sheetnames (wb f)) DASHBOARD_SHEET_PATTERNS) (now clk) in
  let run := main L f clk empty_bronze in
  snd run = Ok tt ->
  exists d l,
    ingest_dashboard_monthly L (wb f) m h (now_iso clk) = Ok d /\
    ingest_lease_rate_snapshot L (wb f) m h (now_iso clk) = Ok l /\
    (snd (quality_main (fst run)) = 0 <->
     forallb dash_numbers_ok d = true /\
     forallb (fun r => negb (pd_isna (tenant r)) && lease_numbers_ok r) l = true /\
     match ingest_expenses_monthly L (wb f) m h (now_iso clk) with
     | Some e => forallb (fun r => null_or_nonneg (actual r)) e = true
     | None => True
     end).
Proof.
  intros h m run. subst run. unfold main, main_with. cbv zeta. fold h m.
  assert (check_already_ingested h m (raw_dashboard_monthly empty_bronze) = false)
    as Hc by (unfold check_already_ingested; simpl; rewrite lookup_empty; reflexivity).
  rewrite Hc.
  destruct (ingest_dashboard_monthly L (wb f) m h (now_iso clk)) as [d|e] eqn:Hd;
    [|discriminate].
  pose proof (ingest_expenses_monthly_nonempty L (wb f) m h (now_iso clk)) as Hpos.
  pose proof (validate_exp_extracted L (wb f) m h (now_iso clk)) as Hexp.
  destruct (ingest_expenses_monthly L (wb f) m h (now_iso clk)) as [de|];
    [rewrite (Hpos de eq_refl)|];
    (destruct (ingest_lease_rate_snapshot L (wb f) m h (now_iso clk)) as [l|e] eqn:Hl;
       simpl; [intros _|discriminate];
     exists d, l; split; [reflexivity|]; split; [reflexivity|];
     rewrite quality_main_zero_iff; simpl;
     rewrite <- (validate_dash_eq d),
             <- (validate_lease_extracted L (wb f) m h (now_iso clk) l Hl);
     try rewrite <- (Hexp de eq_refl)).
  - split.
    + intros (H1 & H2 & H3). repeat split.
      * apply (H1 m). apply lookup_insert_eq.
      * apply (H3 m). apply lookup_insert_eq.
      * apply (H2 m). apply lookup_insert_eq.
    + intros (H1 & H2 & H3). repeat split; intros m' df Hm;
        apply lookup_insert_Some in Hm as [[_ <-] | [_ Hm]];
        try (rewrite lookup_empty in Hm; discriminate); assumption.
  - split.
    + intros (H1 & H2 & H3). repeat split.
      * apply (H1 m). apply lookup_insert_eq.
      * apply (H3 m). apply lookup_insert_eq.
    + intros (H1 & H2 & _). repeat split; intros m' df Hm;
        try (rewrite lookup_empty in Hm; discriminate);
        apply lookup_insert_Some in Hm as [[_ <-] | [_ Hm]];
        try (rewrite lookup_empty in Hm; discriminate); assumption.
Qed.
(** ** More on the sheet locator and the period detector *)

Section LocatorMore.

Lemma pick_sheet_loop_lower (names patterns : list string) :
  pick_sheet_loop (map lower names) names (map lower patterns)
  = pick_sheet_loop (map lower names) names patterns.
Proof.
  induction patterns as [|p ps IH]; [reflexivity|].
  simpl. rewrite lower_idem, IH. reflexivity.
Qed.

Lemma pick_sheet_scan_lower_names (pl : string) (lowered names : list string) :
  pick_sheet_scan pl lowered (map lower names)
  = lower <$> pick_sheet_scan pl lowered names.
Proof.
  revert names. induction lowered as [|x lowered IH]; intros [|n names];
    try reflexivity.
  simpl. destruct (py_in pl x); [reflexivity | apply IH].
Qed.

Lemma pick_sheet_loop_lower_names (lowered names patterns : list string) :
  pick_sheet_loop lowered (map lower names) patterns
  = lower <$> pick_sheet_loop lowered names patterns.
Proof.
  induction patterns as [|p ps IH]; [reflexivity|].
  simpl. rewrite pick_sheet_scan_lower_names.
  destruct (pick_sheet_scan (lower p) lowered names); [reflexivity | exact IH].
Qed.

End LocatorMore.

(** X18. The sheet locator ignores the case of the patterns and of the sheet
    names: lowercasing the patterns does not change its answer, and
    lowercasing the sheet names changes only the case of the name it
    returns. *)
Theorem pick_sheet_ignores_case (sheetnames patterns : list string) :
  pick_sheet sheetnames (map lower patterns) = pick_sheet sheetnames patterns /\
  pick_sheet (map lower sheetnames) patterns
  = lower <$> pick_sheet sheetnames patterns.
Proof.
  unfold pick_sheet. split.
  - apply pick_sheet_loop_lower.
  - rewrite map_map.
    rewrite (map_ext (fun x => lower (lower x)) lower lower_idem).
    apply pick_sheet_loop_lower_names.
Qed.

Section DetectorMore.

Variable L : Lib.

Lemma cell_value_firstn (ws : grid) (n r c : nat) :
  r <= n -> cell_value (firstn n ws) r c = cell_value ws r c.
Proof.
  intros Hr. unfold cell_value, row_values. destruct c as [|c]; [reflexivity|].
  destruct r as [|r]; [reflexivity|]. f_equal.
  revert n Hr ws. induction r as [|r IH]; intros [|n] Hr ws; try lia.
  - destruct ws; reflexivity.
  - destruct ws as [|x ws]; [reflexivity|]. simpl. apply IH. lia.
Qed.

Lemma row_candidates_firstn (ws : grid) (n r : nat) (cells : list pyval) :
  r <= n -> row_candidates (firstn n ws) r cells = row_candidates ws r cells.
Proof.
  intros Hr. unfold row_candidates. f_equal. apply imap_ext. intros j v _.
  simpl. destruct (is_period_cell v); [|reflexivity].
  unfold right_neighbours. rewrite !cell_value_firstn by exact Hr. reflexivity.
Qed.

Lemma sheet_candidates_firstn (ws : grid) :
  sheet_candidates (firstn 50 ws) = sheet_candidates ws.
Proof.
  unfold sheet_candidates. rewrite firstn_firstn. simpl Nat.min.
  f_equal. apply imap_ext. intros i cells Hi. simpl.
  apply row_candidates_firstn.
  apply lookup_lt_Some in Hi. rewrite length_take in Hi. lia.
Qed.

Lemma get_sheet_first_50_rows (w : workbook) (name : string) :
  get_sheet (first_50_rows w) name
  = match get_sheet w name with
    | Ok ws => Ok (firstn 50 ws)
    | Raise e => Raise e
    end.
Proof.
  unfold get_sheet, first_50_rows. destruct w as [shs]. simpl.
  induction shs as [|[n g] shs IH]; [reflexivity|]. simpl.
  destruct (String.eqb n name); [reflexivity | exact IH].
Qed.

Lemma period_candidates_first_50_rows (w : workbook) :
  period_candidates (first_50_rows w) = period_candidates w.
Proof.
  unfold period_candidates.
  assert (sheetnames (first_50_rows w) = sheetnames w) as ->.
  { unfold sheetnames, first_50_rows. simpl. rewrite map_map. reflexivity. }
  f_equal. apply map_ext. intros name. rewrite get_sheet_first_50_rows.
  destruct (get_sheet w name); [apply sheet_candidates_firstn | reflexivity].
Qed.

End DetectorMore.

(** X19. The "period" tier of the detector reads the first 50 rows of each
    sheet and nothing below: cutting every sheet after row 50 does not change
    its answer, so a "period" cell in row 51 or later is never found. *)
Theorem period_tier_reads_50_rows (L : Lib) (w : workbook) :
  detect_from_period_cell L (first_50_rows w) = detect_from_period_cell L w /\
  (forall above date,
     length above = 50 ->
     detect_from_period_cell L
       {| sheets := [("Notes", above ++ [[PyStr "Period"; PyDate date]])] |}
     = detect_from_period_cell L {| sheets := [("Notes", above)] |}).
Proof.
  assert (forall w0, detect_from_period_cell L (first_50_rows w0)
                     = detect_from_period_cell L w0) as Hcut.
  { intros w0. rewrite !detect_from_period_cell_spec,
      period_candidates_first_50_rows. reflexivity. }
  split; [apply Hcut|].
  intros above date Hlen.
  rewrite <- (Hcut {| sheets := [("Notes", above ++ _)] |}).
  rewrite <- (Hcut {| sheets := [("Notes", above)] |}).
  unfold first_50_rows. simpl.
  rewrite take_app_le by lia. reflexivity.
Qed.

(** ** The further theorems at example workbooks *)

Lemma lease_records_well_formed_witness :
  lease_from_frame example_lib example_lease_frame "2025-01" "h" "t"
  = Ok (match lease_from_frame example_lib example_lease_frame "2025-01" "h" "t"
        with Ok out => out | Raise _ => [] end) /\
  Forall (fun r => strip (suite_id r) <> "" /\ l_file_md5 r = "h")
    (match lease_from_frame example_lib example_lease_frame "2025-01" "h" "t"
     with Ok out => out | Raise _ => [] end).
Proof.
  assert (lease_from_frame example_lib example_lease_frame "2025-01" "h" "t"
          = Ok (match lease_from_frame example_lib example_lease_frame
                        "2025-01" "h" "t"
                with Ok out => out | Raise _ => [] end)) as H
    by (vm_compute; reflexivity).
  split; [exact H|].
  apply List.Forall_forall. intros r Hr.
  destruct (lease_records_well_formed example_lib _ _ _ _ _ H) as [_ Hall].
  destruct (Hall r (proj2 (list_elem_of_In _ _) Hr)) as (H1 & _ & _ & _ & H5 & _).
  split; assumption.
Defined.

Lemma generated_suite_ids_distinct_witness :
  col_index "suite_id" (rename_columns (columns no_suite_frame)) = None /\
  exists out,
    lease_from_frame example_lib no_suite_frame "2025-01" "h" "t" = Ok out /\
    map suite_id out = ["SUITE_1"; "SUITE_2"] /\ NoDup (map suite_id out).
Proof.
  split; [reflexivity|].
  destruct (lease_from_frame example_lib no_suite_frame "2025-01" "h" "t")
    as [out|e] eqn:E; [|vm_compute in E; discriminate].
  exists out. split; [reflexivity|].
  destruct (generated_suite_ids_distinct example_lib no_suite_frame
              "2025-01" "h" "t" out eq_refl E) as (Hmap & _ & Hnd).
  split; [rewrite Hmap; reflexivity | exact Hnd].
Defined.

Lemma ingest_expenses_monthly_rows_witness :
  exists df,
    ingest_expenses_monthly example_lib (wb expenses_file) "2025-01" "h" "t"
    = Some df /\
    df <> [] /\
    Forall (fun r => expense_category r ∈ ["fixed"; "variable"; "other"]) df.
Proof.
  destruct (ingest_expenses_monthly example_lib (wb expenses_file)
              "2025-01" "h" "t") as [df|] eqn:E; [|vm_compute in E; discriminate].
  exists df. split; [reflexivity|].
  destruct (ingest_expenses_monthly_rows example_lib (wb expenses_file)
              "2025-01" "h" "t" df E) as (Hne & _ & year & _ & Hall).
  split; [exact Hne|].
  apply List.Forall_forall. intros r Hr.
  exact (proj1 (Hall r (proj2 (list_elem_of_In _ _) Hr))).
Defined.

Lemma main_replaces_month_partitions_witness :
  check_already_ingested (content_md5 duplicate_suite_file) "2025-01"
    (raw_dashboard_monthly empty_bronze) = false /\
  snd (main example_lib duplicate_suite_file example_clock empty_bronze) = Ok tt /\
  exists d l,
    raw_dashboard_monthly
      (fst (main example_lib duplicate_suite_file example_clock empty_bronze))
      !! "2025-01" = Some d /\
    raw_lease_rate_snapshot
      (fst (main example_lib duplicate_suite_file example_clock empty_bronze))
      !! "2025-01" = Some l /\
    (forall r, r ∈ d -> d_file_md5 r = content_md5 duplicate_suite_file) /\
    (forall r, r ∈ l -> l_file_md5 r = content_md5 duplicate_suite_file).
Proof.
  split; [vm_compute; reflexivity|].
  split; [vm_compute; reflexivity|].
  destruct (main_replaces_month_partitions example_lib duplicate_suite_file
              example_clock empty_bronze
              ltac:(vm_compute; reflexivity) ltac:(vm_compute; reflexivity))
    as (d & l & _ & _ & Hd & Hl & Hdm & Hlm & _).
  exists d, l. repeat split; assumption.
Defined.

Lemma failed_lease_run_is_skipped_next_witness :
  let run1 := main example_lib no_lease_file example_clock empty_bronze in
  let run2 := main example_lib no_lease_file example_clock (fst run1) in
  snd run1 = Raise (ValueError "Could not find lease/rate sheet") /\
  snd run2 = Ok tt /\
  raw_lease_rate_snapshot (fst run2) = ∅ /\
  map status (ingestion_log (fst run2)) = ["failed"; "skipped"].
Proof.
  destruct (failed_lease_run_is_skipped_next example_lib no_lease_file
              example_clock example_clock empty_bronze
              (match ingest_dashboard_monthly example_lib (wb no_lease_file)
                       "2025-01" (content_md5 no_lease_file)
                       (now_iso example_clock)
               with Ok d => d | Raise _ => [] end)
              (ValueError "Could not find lease/rate sheet")
              ltac:(vm_compute; reflexivity) ltac:(vm_compute; reflexivity)
              ltac:(vm_compute; discriminate) ltac:(vm_compute; reflexivity)
              ltac:(vm_compute; reflexivity))
    as (H1 & _ & H3 & H4 & H5).
  split; [exact H1|]. split; [exact H3|]. split; [exact H4|]. exact H5.
Defined.

Lemma ingest_then_validate_witness :
  snd (main example_lib duplicate_suite_file example_clock empty_bronze) = Ok tt /\
  snd (quality_main
         (fst (main example_lib duplicate_suite_file example_clock empty_bronze)))
  = 0.
Proof.
  split; [vm_compute; reflexivity|].
  destruct (ingest_then_validate example_lib duplicate_suite_file example_clock
              ltac:(vm_compute; reflexivity)) as (d & l & Hd & Hl & Hiff).
  apply Hiff.
  assert (d = example_dashboard_rows) as ->.
  { assert (Ok d = Ok example_dashboard_rows) as Heq
      by (rewrite <- Hd; vm_compute; reflexivity).
    injection Heq as ->. reflexivity. }
  assert (l = example_lease_rows) as ->.
  { assert (Ok l = Ok example_lease_rows) as Heq
      by (rewrite <- Hl; vm_compute; reflexivity).
    injection Heq as ->. reflexivity. }
  split; [vm_compute; reflexivity|]. split; [vm_compute; reflexivity|].
  vm_compute. exact I.
Defined.

Lemma reingest_skipped_witness :
  let run1 := main example_lib duplicate_suite_file example_clock empty_bronze in
  let run2 := main example_lib duplicate_suite_file example_clock (fst run1) in
  snd run2 = Ok tt /\
  raw_dashboard_monthly (fst run2) = raw_dashboard_monthly (fst run1) /\
  raw_expenses_monthly (fst run2) = raw_expenses_monthly (fst run1) /\
  raw_lease_rate_snapshot (fst run2) = raw_lease_rate_snapshot (fst run1) /\
  ingestion_log (fst run2)
  = ingestion_log (fst run1) ++
    [ {| log_file_md5 := content_md5 duplicate_suite_file;
         log_as_of_month := "2025-01"; rows_ingested := 0;
         started_at := now_iso example_clock;
         finished_at := now_iso example_clock; status := "skipped" |} ].
Proof.
  intros run1 run2. subst run2 run1.
  rewrite (reingest_skipped example_lib duplicate_suite_file example_clock
             example_clock empty_bronze eq_refl
             ltac:(vm_compute; reflexivity) ltac:(vm_compute; discriminate)).
  repeat split.
Defined.

Lemma edited_file_forgets_original_witness :
  let st1 := fst (main example_lib duplicate_suite_file example_clock empty_bronze) in
  let st2 := fst (main example_lib expenses_file example_clock st1) in
  check_already_ingested (content_md5 duplicate_suite_file) "2025-01"
    (raw_dashboard_monthly st1) = true /\
  check_already_ingested (content_md5 duplicate_suite_file) "2025-01"
    (raw_dashboard_monthly st2) = false.
Proof.
  split; [vm_compute; reflexivity|].
  exact (edited_file_forgets_original example_lib expenses_file example_clock
           (fst (main example_lib duplicate_suite_file example_clock empty_bronze))
           (content_md5 duplicate_suite_file)
           ltac:(discriminate) ltac:(vm_compute; reflexivity)
           ltac:(vm_compute; reflexivity)).
Defined.

